(** * PRG_IGP-2: the financial summary report, verified against its code

    A shallow embedding of the four Python modules of the repository

      - [project_group/cash_on_hand.py]   (Module [cash_on_hand])
      - [profit_and_loss.py]              (Module [profit_and_loss])
      - [project_group/overheads.py]      (Module [overheads])
      - [project_group/main.py]           (Module [main])

    and the properties their specification states about them.

    Data is modelled as the code has it.  A day is a Python [int] ([Z]).
    A cash, profit or overhead figure is a Python [float], that is an
    IEEE 754 binary64 number: Rocq's primitive [float], whose operations
    are specified by [FloatAxioms] over [SpecFloat].  Not-a-number and the
    infinities are values of that type ([float("nan")] and [float("inf")]
    parse), and subtraction rounds.  The sentinels [(0, 0)] and
    [{'category': '', 'overhead': 0}] hold the Python [int] zero, so a
    reported amount is a [number]: an [int] or a [float].

    Python exceptions are a [result] type, the file system and the order of
    the statements of [generate_summary_report] an explicit state with an
    event trace. *)

From Stdlib Require Import Floats ZArith Lia DecimalString Ascii Sorted Permutation.
From stdpp Require Import base option list sorting gmap strings.

Local Open Scope Z_scope.
Local Open Scope string_scope.
Local Open Scope list_scope.
Local Open Scope nat_scope.

(** * Python's exceptions and the functions that may raise them *)

Inductive exn : Type :=
| IndexError                          (* list index out of range *)
| KeyError (key : string)             (* a dict has no such key *)
| ValueError                          (* int() or float() of a string that is no number *)
| TypeError                           (* int() or float() of None *)
| AttributeError                      (* None has no method upper *)
| FileNotFoundError (path : string).  (* open() of a path that does not exist *)

Inductive result (A : Type) : Type :=
| Ok (a : A)
| Raise (e : exn).
Arguments Ok {A} a.
Arguments Raise {A} e.

#[export] Instance result_ret : MRet result := fun A a => Ok a.
#[export] Instance result_bind : MBind result := fun A B f m =>
  match m with
  | Ok a => f a
  | Raise e => Raise e
  end.

(** [for x in xs: s = body(s, x)], where the body may raise. *)
Fixpoint for_each {A S : Type} (xs : list A) (body : S -> A -> result S) (s : S)
  : result S :=
  match xs with
  | [] => Ok s
  | x :: xs' => s' ← body s x; for_each xs' body s'
  end.

(** [l[i]] for an index [i >= 0]. *)
Definition getitem {A : Type} (l : list A) (i : nat) : result A :=
  match l !! i with
  | Some x => Ok x
  | None => Raise IndexError
  end.

(** [range(a, b)]. *)
Definition range (a b : nat) : list nat := seq a (b - a).

(** * Python floats

    [x < y], [x > y], [x <= y], [x >= y] and [x == y] on floats are the
    IEEE comparisons: each is false as soon as an operand is not-a-number. *)

Module PyFloat.

Definition lt (x y : float) : bool := PrimFloat.ltb x y.
Definition gt (x y : float) : bool := PrimFloat.ltb y x.
Definition le (x y : float) : bool := PrimFloat.leb x y.
Definition ge (x y : float) : bool := PrimFloat.leb y x.
Definition eq (x y : float) : bool := PrimFloat.eqb x y.

(** [x != x] holds exactly for not-a-number. *)
Definition is_nan (x : float) : bool := negb (PrimFloat.eqb x x).

(** [float(z)] for an [int]: the nearest binary64 number, exact up to
    [2^53].  The only [int] the modules ever compare with a float is the
    literal [0]. *)
Definition of_int (z : Z) : float :=
  SF2Prim (binary_normalize prec emax z 0 false).

Definition nan : float := PrimFloat.nan.
Definition inf : float := PrimFloat.infinity.

End PyFloat.

(** A Python number: an [int] or a [float]. *)
Inductive number : Type :=
| Int (z : Z)
| Float (f : float).

(** Comparing a float with a number converts an [int] operand to
    [float] first (CPython's [float_richcompare] does so for every [int] of at
    most 48 bits). *)
Definition to_float (n : number) : float :=
  match n with
  | Int z => PyFloat.of_int z
  | Float f => f
  end.

(** [str(z)] for an [int]. *)
Definition str_int (z : Z) : string := NilZero.string_of_int (Z.to_int z).

(** What the modules use of Python's built-in library and do not define:
    [int(s)] and [float(s)] on a string ([None] when Python raises
    [ValueError]), [repr] of a float as an f-string prints it, and
    [str.upper]. *)
Class Builtins : Type := {
  py_int : string -> option Z;
  py_float : string -> option float;
  float_repr : float -> string;
  str_upper : string -> string
}.

(** [f"{n}"] for a number. *)
Definition str_number `{Builtins} (n : number) : string :=
  match n with
  | Int z => str_int z
  | Float f => float_repr f
  end.

(** * Python's stable sort

    [list.sort(key=k)] and [sorted(l, key=k)] compare the keys with [<] only
    and are stable.  On keys that [<] orders totally (no not-a-number among
    them, which is the case of every list the modules sort) there is one
    stable sorted arrangement of a list ([py_sorted_unique] below), here
    computed by insertion from the right: an entry goes in front of the first
    later entry whose key is not smaller than its own. *)

Section PySorted.
Context {A : Type} (key : A -> float).

Fixpoint insert_by (x : A) (l : list A) : list A :=
  match l with
  | [] => [x]
  | y :: l' =>
      if PyFloat.lt (key y) (key x) then y :: insert_by x l' else x :: y :: l'
  end.

Definition py_sorted (l : list A) : list A := foldr insert_by [] l.

End PySorted.

(** * The world of a run

    A CSV file is what [csv.DictReader] makes of it: the rows in file order,
    each a dict from the header's column names to the fields of the line,
    [None] for a field the line is too short to have.  A text file is its
    content.  The trace records, in the order they happen, the steps of a
    run that the specification speaks about. *)

Definition row : Type := gmap string (option string).

Inductive event : Type :=
| Opened (path : string)             (* open(path, 'r') returned a file *)
| ReadAll (path : string)            (* the reader consumed every row and returned *)
| Called (function : string)         (* an analysis function was called *)
| Created (path : string)            (* open(path, 'w') created or truncated the file *)
| Wrote (path : string) (s : string). (* file.write(s) *)

Record world : Type := World {
  csv_files : gmap string (list row);
  text_files : gmap string string;
  trace : list event
}.

Definition io (A : Type) : Type := world -> result A * world.

#[export] Instance io_ret : MRet io := fun A a w => (Ok a, w).
#[export] Instance io_bind : MBind io := fun A B f m w =>
  match m w with
  | (Ok a, w') => f a w'
  | (Raise e, w') => (Raise e, w')
  end.

Definition lift {A : Type} (r : result A) : io A := fun w => (r, w).

Definition log (e : event) : io unit := fun w =>
  (Ok tt, World (csv_files w) (text_files w) (trace w ++ [e])).

(** [open(path, 'r', encoding='utf-8-sig')] followed by [csv.DictReader].
    The files of a world are files that decode and that the [csv] module
    parses into rows; a path with no file is the one failure of [open] in
    the model.  Bytes that do not decode, a field beyond the limit of the
    [csv] module and a path that cannot be opened for another reason are
    outside it. *)
Definition open_csv (path : string) : io (list row) := fun w =>
  match csv_files w !! path with
  | Some rows => (Ok rows, World (csv_files w) (text_files w) (trace w ++ [Opened path]))
  | None => (Raise (FileNotFoundError path), w)
  end.

(** [row[column]]. *)
Definition getkey (r : row) (column : string) : result (option string) :=
  match r !! column with
  | Some field => Ok field
  | None => Raise (KeyError column)
  end.

(** [int(field)] and [float(field)]. *)
Definition int_of `{Builtins} (field : option string) : result Z :=
  match field with
  | None => Raise TypeError
  | Some s => match py_int s with Some z => Ok z | None => Raise ValueError end
  end.

Definition float_of `{Builtins} (field : option string) : result float :=
  match field with
  | None => Raise TypeError
  | Some s => match py_float s with Some x => Ok x | None => Raise ValueError end
  end.

(** The body of [with open(path, 'w') as file:] only writes to [file]: it
    is a computation that collects the strings written, in order, and may
    raise. *)
Definition writer (A : Type) : Type := (list string * result A)%type.

#[export] Instance writer_ret : MRet writer := fun A a => ([], Ok a).
#[export] Instance writer_bind : MBind writer := fun A B f m =>
  match m with
  | (out, Ok a) => let '(out', r) := f a in (out ++ out', r)
  | (out, Raise e) => (out, Raise e)
  end.

Definition file_write (s : string) : writer unit := ([s], Ok tt).

Definition lift_w {A : Type} (r : result A) : writer A := ([], r).

(** [for x in xs: body(x)] in the body of the [with]. *)
Fixpoint for_write {A : Type} (xs : list A) (body : A -> writer unit) : writer unit :=
  match xs with
  | [] => mret tt
  | x :: xs' => _ ← body x; for_write xs' body
  end.

(** [with open(path, 'w') as file: body]: the file is created or truncated,
    receives what the body writes, and is closed also when the body
    raises. *)
Definition with_open_w {A : Type} (path : string) (body : writer A) : io A := fun w =>
  let '(out, r) := body in
  (r, World (csv_files w)
            (<[path := String.concat "" out]> (text_files w))
            (trace w ++ Created path :: map (Wrote path) out)).

(** The newline character. *)
Definition nl : string := String (Ascii.ascii_of_nat 10) EmptyString.

(** * cash_on_hand.py *)

Module cash_on_hand.

(** The body of the loop of [read_cash_on_hand]. *)
Definition read_row `{Builtins} (cash_data : list (Z * float)) (r : row)
  : result (list (Z * float)) :=
  field ← getkey r "Day";
  day ← int_of field;
  field ← getkey r "Cash On Hand";
  cash_on_hand ← float_of field;
  mret (cash_data ++ [(day, cash_on_hand)]).

Definition read_cash_on_hand `{Builtins} (file_path : string)
  : io (list (Z * float)) :=
  rows ← open_csv file_path;
  cash_data ← lift (for_each rows read_row []);
  _ ← log (ReadAll file_path);
  mret cash_data.

Definition compute_differences (cash_data : list (Z * float))
  : result (list (Z * float)) :=
  for_each (range 1 (length cash_data)) (fun differences i =>
      cur ← getitem cash_data i;
      prev ← getitem cash_data (i - 1);
      let difference := (cur.2 - prev.2)%float in
      cur' ← getitem cash_data i;
      mret (differences ++ [(cur'.1, difference)])) [].

(** One turn of the loop of [find_extremes]. *)
Definition scan (st : (Z * number) * (Z * number) * list (Z * float))
    (entry : Z * float) : (Z * number) * (Z * number) * list (Z * float) :=
  let '(highest_increase, highest_decrease, deficits) := st in
  let '(day, difference) := entry in
  let '(highest_increase, highest_decrease) :=
    if PyFloat.gt difference (to_float highest_increase.2)
    then ((day, Float difference), highest_decrease)
    else if PyFloat.lt difference (to_float highest_decrease.2)
    then (highest_increase, (day, Float difference))
    else (highest_increase, highest_decrease) in
  let deficits :=
    if PyFloat.lt difference (to_float (Int 0))
    then deficits ++ [(day, difference)]
    else deficits in
  (highest_increase, highest_decrease, deficits).

Definition deficit_sort (deficit : Z * float) : float := deficit.2.

Definition find_extremes (differences : list (Z * float))
  : (Z * number) * (Z * number) * list (Z * float) :=
  let highest_increase := (0%Z, Int 0) in
  let highest_decrease := (0%Z, Int 0) in
  let deficits := [] in
  let '(highest_increase, highest_decrease, deficits) :=
    fold_left scan differences (highest_increase, highest_decrease, deficits) in
  let deficits := py_sorted deficit_sort deficits in
  let top_deficits := take 3 deficits in
  (highest_increase, highest_decrease, top_deficits).

End cash_on_hand.

(** * profit_and_loss.py

    [main.py] imports these functions from a module it names [profit_loss]. *)

Module profit_and_loss.

(** The body of the loop of [read_profit_loss]. *)
Definition read_row `{Builtins} (profit_loss_data : list (Z * float)) (r : row)
  : result (list (Z * float)) :=
  field ← getkey r "Day";
  day ← int_of field;
  field ← getkey r "Net Profit";
  net_profit ← float_of field;
  mret (profit_loss_data ++ [(day, net_profit)]).

Definition read_profit_loss `{Builtins} (file_path : string)
  : io (list (Z * float)) :=
  rows ← open_csv file_path;
  profit_loss_data ← lift (for_each rows read_row []);
  _ ← log (ReadAll file_path);
  mret profit_loss_data.

Definition compute_differences (profit_loss_data : list (Z * float))
  : result (list (Z * float)) :=
  for_each (range 1 (length profit_loss_data)) (fun differences i =>
      '(current_day, current_profit) ← getitem profit_loss_data i;
      '(_, previous_profit) ← getitem profit_loss_data (i - 1);
      let difference := (current_profit - previous_profit)%float in
      mret (differences ++ [(current_day, difference)])) [].

(** One turn of the loop of [find_extremes]. *)
Definition scan (st : (Z * number) * (Z * number) * list (Z * float))
    (entry : Z * float) : (Z * number) * (Z * number) * list (Z * float) :=
  let '(highest_increase, highest_decrease, deficits) := st in
  let '(day, difference) := entry in
  let '(highest_increase, highest_decrease) :=
    if PyFloat.gt difference (to_float highest_increase.2)
    then ((day, Float difference), highest_decrease)
    else if PyFloat.lt difference (to_float highest_decrease.2)
    then (highest_increase, (day, Float difference))
    else (highest_increase, highest_decrease) in
  let deficits :=
    if PyFloat.lt difference (to_float (Int 0))
    then deficits ++ [(day, difference)]
    else deficits in
  (highest_increase, highest_decrease, deficits).

Definition sort_deficit (item : Z * float) : float := item.2.

Definition find_extremes (differences : list (Z * float))
  : (Z * number) * (Z * number) * list (Z * float) :=
  let highest_increase := (0%Z, Int 0) in
  let highest_decrease := (0%Z, Int 0) in
  let deficits := [] in
  let '(highest_increase, highest_decrease, deficits) :=
    fold_left scan differences (highest_increase, highest_decrease, deficits) in
  let deficits_sorted := py_sorted sort_deficit deficits in
  let top_deficits := take 3 deficits_sorted in
  (highest_increase, highest_decrease, top_deficits).

End profit_and_loss.

(** * overheads.py *)

Module overheads.

(** The dict [{'category': c, 'overhead': a}].  The reader stores the
    field of the [Category] column as it is (a string, or [None] on a short
    line) and a float amount; the sentinel of [find_highest_overhead] has
    the [int] amount [0]. *)
Record dict (A : Type) : Type := Dict {
  category : option string;
  overhead : A
}.
Arguments Dict {A} category overhead.
Arguments category {A} d.
Arguments overhead {A} d.

(** The body of the loop of [read_overheads]. *)
Definition read_row `{Builtins} (overheads : list (dict float)) (r : row)
  : result (list (dict float)) :=
  category ← getkey r "Category";
  field ← getkey r "Overheads";
  overhead ← float_of field;
  mret (overheads ++ [Dict category overhead]).

Definition read_overheads `{Builtins} (file_path : string)
  : io (list (dict float)) :=
  rows ← open_csv file_path;
  overheads ← lift (for_each rows read_row []);
  _ ← log (ReadAll file_path);
  mret overheads.

(** One turn of the loop of [find_highest_overhead]. *)
Definition scan (highest_overhead : dict number) (category_data : dict float)
  : dict number :=
  if PyFloat.gt (overhead category_data) (to_float (overhead highest_overhead))
  then Dict (category category_data) (Float (overhead category_data))
  else highest_overhead.

Definition find_highest_overhead (overheads : list (dict float)) : dict number :=
  let highest_overhead := Dict (Some "") (Int 0) in
  fold_left scan overheads highest_overhead.

End overheads.

(** * main.py *)

Module main.

Definition sort_by_amount (item : Z * float) : float := item.2.

(** [enumerate(l, start)]. *)
Fixpoint enumerate {A : Type} (start : nat) (l : list A) : list (nat * A) :=
  match l with
  | [] => []
  | x :: l' => (start, x) :: enumerate (S start) l'
  end.

(** [all(difference >= 0 for _, difference in differences)]. *)
Definition consistent (differences : list (Z * float)) : bool :=
  forallb (fun '(_, difference) => PyFloat.ge difference (to_float (Int 0)))
          differences.

Section Report.
Context `{Builtins}.

(** [s.upper()] on the value stored under ['category']. *)
Definition upper (s : option string) : result string :=
  match s with
  | Some s => Ok (str_upper s)
  | None => Raise AttributeError
  end.

(** The lines the report is made of, as the f-strings build them. *)
Definition overhead_line (category : string) (amount : number) : string :=
  "[HIGHEST OVERHEAD] " +:+ category +:+ ": " +:+ str_number amount
    +:+ "%" +:+ nl +:+ nl.

Definition surplus_line (label : string) (increase : Z * number) : string :=
  "[HIGHEST " +:+ label +:+ " SURPLUS] DAY: " +:+ str_int increase.1
    +:+ ", AMOUNT: USD" +:+ str_number increase.2 +:+ nl +:+ nl.

Definition deficit_line (label : string) (day : Z) (deficit : float) : string :=
  "[" +:+ label +:+ " DEFICIT] DAY: " +:+ str_int day
    +:+ ", AMOUNT: USD" +:+ float_repr (PrimFloat.abs deficit) +:+ nl.

Definition top_deficit_line (ordinal label : string) (day : Z) (deficit : float)
  : string :=
  "[" +:+ ordinal +:+ " HIGHEST " +:+ label +:+ " DEFICIT] DAY: " +:+ str_int day
    +:+ ", AMOUNT: USD" +:+ float_repr (PrimFloat.abs deficit) +:+ nl.

(** The deficit branch of a section: one line per negative delta, a
    blank line, the ranked top deficits, a blank line. *)
Definition deficit_branch (label : string) (differences deficits : list (Z * float))
  : writer unit :=
  _ ← for_write differences (fun '(day, deficit) =>
        if PyFloat.lt deficit (to_float (Int 0))
        then file_write (deficit_line label day deficit)
        else mret tt);
  _ ← file_write nl;
  let deficits_sorted := take 3 (py_sorted sort_by_amount deficits) in
  _ ← for_write (enumerate 1 deficits_sorted) (fun '(i, (day, deficit)) =>
        ordinal ← lift_w (getitem ["1ST"; "2ND"; "3RD"] (i - 1));
        file_write (top_deficit_line ordinal label day deficit));
  file_write nl.

(** Lines 48-64: the cash section. *)
Definition cash_section (consistent_cash : bool)
    (cash_differences : list (Z * float)) (cash_increase : Z * number)
    (cash_deficits : list (Z * float)) : writer unit :=
  if consistent_cash
  then file_write (surplus_line "CASH" cash_increase)
  else deficit_branch "CASH" cash_differences cash_deficits.

(** Lines 66-89: the profit section. *)
Definition profit_section (consistent_profit : bool)
    (profit_differences : list (Z * float)) (profit_increase : Z * number)
    (profit_deficits : list (Z * float)) : writer unit :=
  if consistent_profit
  then file_write (surplus_line "NET PROFIT" profit_increase)
  else deficit_branch "NET PROFIT" profit_differences profit_deficits.

(** Lines 38-89: the body of [with open('summary_report.txt', 'w')]. *)
Definition report (highest_overhead : overheads.dict number)
    (cash_differences : list (Z * float)) (cash_increase : Z * number)
    (cash_deficits : list (Z * float))
    (profit_differences : list (Z * float)) (profit_increase : Z * number)
    (profit_deficits : list (Z * float)) : writer unit :=
  category ← lift_w (upper (overheads.category highest_overhead));
  _ ← file_write (overhead_line category (overheads.overhead highest_overhead));
  let consistent_cash := consistent cash_differences in
  let consistent_profit := consistent profit_differences in
  _ ← cash_section consistent_cash cash_differences cash_increase cash_deficits;
  profit_section consistent_profit profit_differences profit_increase
                 profit_deficits.

(** A call of an analysis function. *)
Definition call {A : Type} (function : string) (r : result A) : io A :=
  _ ← log (Called function); lift r.

Definition generate_summary_report : io unit :=
  cash_data ← cash_on_hand.read_cash_on_hand "csv_reports/cash_on_hand.csv";
  cash_differences ←
    call "compute_cash_differences" (cash_on_hand.compute_differences cash_data);
  '(cash_increase, cash_decrease, cash_deficits) ←
    call "find_cash_extremes" (Ok (cash_on_hand.find_extremes cash_differences));
  overheads_data ← overheads.read_overheads "csv_reports/Overheads.csv";
  highest_overhead ←
    call "find_highest_overhead" (Ok (overheads.find_highest_overhead overheads_data));
  profit_loss_data ←
    profit_and_loss.read_profit_loss "csv_reports/Profit_and_Loss.csv";
  profit_differences ←
    call "compute_profit_differences"
         (profit_and_loss.compute_differences profit_loss_data);
  '(profit_increase, profit_decrease, profit_deficits) ←
    call "find_profit_extremes"
         (Ok (profit_and_loss.find_extremes profit_differences));
  with_open_w "summary_report.txt"
    (report highest_overhead cash_differences cash_increase cash_deficits
            profit_differences profit_increase profit_deficits).

End Report.

End main.

(** * What the specification says, as definitions

    The closed forms and predicates in which the properties below are
    stated.  They follow the specification's words; the theorems compare
    them with the functions above. *)

(** The Difference Engine's output: entry [i] pairs [day[i+1]] with
    [value[i+1] - value[i]]. *)
Fixpoint differences_of (data : list (Z * float)) : list (Z * float) :=
  match data with
  | prev :: (cur :: _) as rest =>
      (cur.1, (cur.2 - prev.2)%float) :: differences_of rest
  | _ => []
  end.

(** A deficit: a delta that is negative. *)
Definition is_deficit (entry : Z * float) : bool :=
  PyFloat.lt entry.2 (to_float (Int 0)).

(** The entries whose delta compares equal to [k]. *)
Definition with_delta (k : float) (entry : Z * float) : bool := PyFloat.eq entry.2 k.

(** The Extremes Finder's [top_deficits] for the delta sequence
    [differences]: as many entries as there are deficits, three at most;
    ascending by delta; entries of equal delta in their original order; and
    made of the smallest deficits, the others being no smaller. *)
Definition is_top_deficits (differences top_deficits : list (Z * float)) : Prop :=
  length top_deficits = Nat.min 3 (length (List.filter is_deficit differences))
  /\ StronglySorted (fun a b => PyFloat.le a.2 b.2 = true) top_deficits
  /\ (forall k, List.filter (with_delta k) top_deficits
                  `prefix_of` List.filter (with_delta k) differences)
  /\ exists others,
       Permutation (top_deficits ++ others) (List.filter is_deficit differences)
       /\ forall a b, a ∈ top_deficits -> b ∈ others -> PyFloat.le a.2 b.2 = true.

(** The single-pass scan with two independent [if]s in place of
    [if ... elif ...]: the minimum is updated whether or not the maximum
    was. *)
Definition scan_unguarded (st : (Z * number) * (Z * number) * list (Z * float))
    (entry : Z * float) : (Z * number) * (Z * number) * list (Z * float) :=
  let '(highest_increase, highest_decrease, deficits) := st in
  let '(day, difference) := entry in
  let highest_increase' :=
    if PyFloat.gt difference (to_float highest_increase.2)
    then (day, Float difference) else highest_increase in
  let highest_decrease' :=
    if PyFloat.lt difference (to_float highest_decrease.2)
    then (day, Float difference) else highest_decrease in
  let deficits :=
    if PyFloat.lt difference (to_float (Int 0))
    then deficits ++ [(day, difference)]
    else deficits in
  (highest_increase', highest_decrease', deficits).

Definition find_extremes_unguarded (differences : list (Z * float))
  : (Z * number) * (Z * number) * list (Z * float) :=
  let '(highest_increase, highest_decrease, deficits) :=
    fold_left scan_unguarded differences ((0%Z, Int 0), (0%Z, Int 0), []) in
  (highest_increase, highest_decrease,
   take 3 (py_sorted cash_on_hand.deficit_sort deficits)).

(** A running maximum seeded with a floor of zero: the shape shared by the
    scan for the highest increase and the scan for the highest overhead.
    [None] stands for the sentinel. *)
Section RunningMax.
Context {A : Type} (key : A -> float).

Definition floor_of (best : option A) : float :=
  match best with
  | None => 0%float
  | Some a => key a
  end.

Definition best_step (best : option A) (x : A) : option A :=
  if PyFloat.gt (key x) (floor_of best) then Some x else best.

Definition running_max (xs : list A) : option A := fold_left best_step xs None.

(** What a running maximum should be: nothing when no key exceeds zero;
    otherwise an entry of greatest key, and the first of them. *)
Definition is_running_max (xs : list A) (best : option A) : Prop :=
  match best with
  | None => forall x, x ∈ xs -> PyFloat.gt (key x) 0 = false
  | Some a =>
      exists i, xs !! i = Some a
        /\ PyFloat.lt 0 (key a) = true
        /\ (forall x, x ∈ xs -> PyFloat.gt (key x) (key a) = false)
        /\ (forall j x, j < i -> xs !! j = Some x ->
              PyFloat.ge (key x) (key a) = false)
  end.

End RunningMax.

(** The result of a scan whose running maximum is [best]. *)
Definition as_extreme (best : option (Z * float)) : Z * number :=
  match best with
  | None => (0%Z, Int 0)
  | Some (day, delta) => (day, Float delta)
  end.

Definition as_dict (best : option (overheads.dict float)) : overheads.dict number :=
  match best with
  | None => overheads.Dict (Some "") (Int 0)
  | Some d => overheads.Dict (overheads.category d) (Float (overheads.overhead d))
  end.

(** The Extremes Finder's [highest_increase]: the sentinel [(0, 0)] when no
    delta is above zero; otherwise an entry whose delta no delta exceeds, and
    the first such entry (no earlier delta is as large). *)
Definition is_highest_increase (differences : list (Z * float))
    (highest_increase : Z * number) : Prop :=
  (highest_increase = (0%Z, Int 0)
   /\ forall e, e ∈ differences -> PyFloat.gt e.2 0 = false)
  \/ exists i day delta,
       differences !! i = Some (day, delta)
       /\ highest_increase = (day, Float delta)
       /\ PyFloat.lt 0 delta = true
       /\ (forall e, e ∈ differences -> PyFloat.gt e.2 delta = false)
       /\ (forall j e, j < i -> differences !! j = Some e ->
             PyFloat.ge e.2 delta = false).

(** The Overhead Ranker's result, likewise. *)
Definition is_highest_overhead (records : list (overheads.dict float))
    (highest : overheads.dict number) : Prop :=
  (highest = overheads.Dict (Some "") (Int 0)
   /\ forall d, d ∈ records -> PyFloat.gt (overheads.overhead d) 0 = false)
  \/ exists i d,
       records !! i = Some d
       /\ highest = overheads.Dict (overheads.category d) (Float (overheads.overhead d))
       /\ PyFloat.lt 0 (overheads.overhead d) = true
       /\ (forall e, e ∈ records ->
             PyFloat.gt (overheads.overhead e) (overheads.overhead d) = false)
       /\ (forall j e, j < i -> records !! j = Some e ->
             PyFloat.ge (overheads.overhead e) (overheads.overhead d) = false).

(** The invariant of the scan of [find_extremes]: the running maximum is
    not below zero and the running minimum not above. *)
Definition extremes_invariant
    (st : (Z * number) * (Z * number) * list (Z * float)) : Prop :=
  PyFloat.ge (to_float st.1.1.2) 0 = true /\ PyFloat.le (to_float st.1.2.2) 0 = true.

(** The state in which the scan starts. *)
Definition initially : (Z * number) * (Z * number) * list (Z * float) :=
  ((0%Z, Int 0), (0%Z, Int 0), []).

(** The lines of the deficit branch of a report section: one per
    negative delta, in day order; and the ranked top deficits. *)
Definition deficit_lines `{Builtins} (label : string) (differences : list (Z * float))
  : list string :=
  map (fun e => main.deficit_line label e.1 e.2) (List.filter is_deficit differences).

Definition top_lines `{Builtins} (label : string) (deficits : list (Z * float))
  : list string :=
  zip_with (fun ordinal e => main.top_deficit_line ordinal label e.1 e.2)
           ["1ST"; "2ND"; "3RD"] deficits.

(** The three input files and the schema the readers coerce them to. *)
Definition cash_csv : string := "csv_reports/cash_on_hand.csv".
Definition overheads_csv : string := "csv_reports/Overheads.csv".
Definition profit_csv : string := "csv_reports/Profit_and_Loss.csv".
Definition summary_txt : string := "summary_report.txt".






(** No output file was opened or written. *)
Definition silent (t : list event) : Prop :=
  forall e, e ∈ t -> match e with Created _ | Wrote _ _ => False | _ => True end.

(** Every read is complete before any analysis function is called. *)
Definition reads_before_analysis (t : list event) : Prop :=
  forall i j function path,
    t !! i = Some (Called function) -> t !! j = Some (ReadAll path) -> j < i.

(** The steps of a run up to the opening of the output file, in the order
    of the statements of [generate_summary_report]. *)
Definition steps : list event :=
  [ Opened cash_csv; ReadAll cash_csv;
    Called "compute_cash_differences"; Called "find_cash_extremes";
    Opened overheads_csv; ReadAll overheads_csv;
    Called "find_highest_overhead";
    Opened profit_csv; ReadAll profit_csv;
    Called "compute_profit_differences"; Called "find_profit_extremes" ].

(** The run from [w] to [w'] did not touch the output: no text file
    changed, and the trace grew by a prefix of [steps], in which no file is
    created or written. *)
Definition untouched (w w' : world) : Prop :=
  text_files w' = text_files w
  /\ exists t, trace w' = trace w ++ t /\ t `prefix_of` steps /\ silent t.

(** The input file an analysis function works on. *)
Definition input_of (function : string) : string :=
  if String.eqb function "find_highest_overhead" then overheads_csv
  else if String.eqb function "compute_cash_differences"
          || String.eqb function "find_cash_extremes" then cash_csv
  else profit_csv.

(** Every analysis function is called after its own input was read to
    completion. *)
Definition own_read_first (t : list event) : Prop :=
  forall i function, t !! i = Some (Called function) ->
    exists j, j < i /\ t !! j = Some (ReadAll (input_of function)).

(** The output file is created only after every step was taken. *)
Definition output_last (t : list event) : Prop :=
  forall j path, t !! j = Some (Created path) -> take j t = steps.

(** A row of two coerced columns, as the cash and the profit readers read
    it. *)
Definition read_day_value `{Builtins} (value_column : string)
    (data : list (Z * float)) (r : row)
  : result (list (Z * float)) :=
  field ← getkey r "Day";
  day ← int_of field;
  field ← getkey r value_column;
  value ← float_of field;
  mret (data ++ [(day, value)]).

(** The world after more events. *)
Definition extend (w : world) (t : list event) : world :=
  World (csv_files w) (text_files w) (trace w ++ t).

(** A run of [generate_summary_report], read off its statements: the first
    read that fails ends it, with the steps taken so far in the trace;
    otherwise the report is written. *)
Definition outcome `{Builtins} (w : world) : result unit * world :=
  match csv_files w !! cash_csv with
  | None => (Raise (FileNotFoundError cash_csv), w)
  | Some cash_rows =>
  match for_each cash_rows cash_on_hand.read_row [] with
  | Raise e => (Raise e, extend w (take 1 steps))
  | Ok cash_data =>
  match csv_files w !! overheads_csv with
  | None => (Raise (FileNotFoundError overheads_csv), extend w (take 4 steps))
  | Some overheads_rows =>
  match for_each overheads_rows overheads.read_row [] with
  | Raise e => (Raise e, extend w (take 5 steps))
  | Ok overheads_data =>
  match csv_files w !! profit_csv with
  | None => (Raise (FileNotFoundError profit_csv), extend w (take 7 steps))
  | Some profit_rows =>
  match for_each profit_rows profit_and_loss.read_row [] with
  | Raise e => (Raise e, extend w (take 8 steps))
  | Ok profit_loss_data =>
      let cash_differences := differences_of cash_data in
      let '(cash_increase, _, cash_deficits) :=
        cash_on_hand.find_extremes cash_differences in
      let highest_overhead := overheads.find_highest_overhead overheads_data in
      let profit_differences := differences_of profit_loss_data in
      let '(profit_increase, _, profit_deficits) :=
        profit_and_loss.find_extremes profit_differences in
      let written :=
        main.report highest_overhead cash_differences cash_increase cash_deficits
                    profit_differences profit_increase profit_deficits in
      (written.2,
       World (csv_files w)
             (<[summary_txt := String.concat "" written.1]> (text_files w))
             (trace w ++ steps ++ Created summary_txt :: map (Wrote summary_txt) written.1))
  end end end end end end.

(** * Sample inputs

    A fragment of the built-ins that covers the sample files: [int] and
    [float] of a decimal integer literal, [float] of [nan] and [inf], [repr]
    of a float that is an integer below [10^16] (its digits followed by
    [.0]), of an infinity and of not-a-number, and [upper] on ASCII letters. *)

Module Sample.

Definition int_of_string (s : string) : option Z :=
  Z.of_int <$> NilZero.int_of_string s.

Definition float_of_string (s : string) : option float :=
  if String.eqb s "nan" then Some PyFloat.nan
  else if String.eqb s "inf" then Some PyFloat.inf
  else if String.eqb s "-inf" then Some (- PyFloat.inf)%float
  else PyFloat.of_int <$> int_of_string s.

(** The integer a float is, if it is one. *)
Definition integral (x : float) : option Z :=
  match Prim2SF x with
  | S754_zero _ => Some 0%Z
  | S754_finite s m e =>
      let n := if (0 <=? e)%Z then Some (Z.pos m * 2 ^ e)%Z
               else if (Z.pos m mod 2 ^ (- e) =? 0)%Z
                    then Some (Z.pos m / 2 ^ (- e))%Z else None in
      (fun n => if s then (- n)%Z else n) <$> n
  | _ => None
  end.

Definition repr (x : float) : string :=
  match Prim2SF x with
  | S754_nan => "nan"
  | S754_infinity s => if s then "-inf" else "inf"
  | S754_zero s => if s then "-0.0" else "0.0"
  | S754_finite _ _ _ =>
      match integral x with
      | Some n => if (Z.abs n <? 10 ^ 16)%Z then str_int n +:+ ".0" else "?"
      | None => "?"
      end
  end.

Definition upper_ascii (c : ascii) : ascii :=
  let n := nat_of_ascii c in
  if (97 <=? n) && (n <=? 122) then ascii_of_nat (n - 32) else c.

Fixpoint upper (s : string) : string :=
  match s with
  | EmptyString => EmptyString
  | String c s' => String (upper_ascii c) (upper s')
  end.

#[export] Instance builtins : Builtins := {|
  py_int := int_of_string;
  py_float := float_of_string;
  float_repr := repr;
  str_upper := upper
|}.

Definition row_of (fields : list (string * string)) : row :=
  list_to_map (prod_map id Some <$> fields).

(** The cash file of the specification's scenario. *)
Definition cash_rows : list row :=
  [ row_of [("Day", "1"); ("Cash On Hand", "100")];
    row_of [("Day", "2"); ("Cash On Hand", "150")];
    row_of [("Day", "3"); ("Cash On Hand", "90")];
    row_of [("Day", "4"); ("Cash On Hand", "90")] ].

Definition overheads_rows : list row :=
  [ row_of [("Category", "Rent"); ("Overheads", "40")];
    row_of [("Category", "Payroll"); ("Overheads", "55")];
    row_of [("Category", "Utilities"); ("Overheads", "5")] ].

Definition profit_rows : list row :=
  [ row_of [("Day", "1"); ("Net Profit", "10")];
    row_of [("Day", "2"); ("Net Profit", "30")] ].

Definition files : world :=
  World (<[cash_csv := cash_rows]>
           (<[overheads_csv := overheads_rows]> {[profit_csv := profit_rows]}))
        ∅ [].

(** The same files with a cash figure that is not a number. *)
Definition bad_cash_rows : list row :=
  [ row_of [("Day", "1"); ("Cash On Hand", "100")];
    row_of [("Day", "2"); ("Cash On Hand", "n/a")] ].

Definition bad_files : world :=
  World (<[cash_csv := bad_cash_rows]>
           (<[overheads_csv := overheads_rows]> {[profit_csv := profit_rows]}))
        ∅ [].

(** Cash figures, in dollars, at which the subtraction rounds:
    [0.03] and [0.3]. *)
Definition rounding_cash : list (Z * float) :=
  [ (1%Z, 0x1.eb851eb851eb8p-6%float); (2%Z, 0x1.3333333333333p-2%float) ].

(** Cash figures whose delta is not-a-number: [inf] and [inf]. *)
Definition inf_cash : list (Z * float) :=
  [ (1%Z, PyFloat.inf); (2%Z, PyFloat.inf) ].


End Sample.

(** * Further definitions

    The predicates in which the properties of the code beyond its
    specification are stated: the running minimum of the scan, what a reader
    makes of a row, and the ways a run can end. *)

(** A running minimum seeded with a ceiling of zero: the shape of the scan
    for the highest decrease.  [None] stands for the sentinel. *)
Section RunningMin.
Context {A : Type} (key : A -> float).

Definition least_step (best : option A) (x : A) : option A :=
  if PyFloat.lt (key x) (floor_of key best) then Some x else best.

Definition running_min (xs : list A) : option A := fold_left least_step xs None.

(** What a running minimum should be: nothing when no key is below zero;
    otherwise an entry of least key, and the first of them. *)
Definition is_running_min (xs : list A) (best : option A) : Prop :=
  match best with
  | None => forall x, x ∈ xs -> PyFloat.lt (key x) 0 = false
  | Some a =>
      exists i, xs !! i = Some a
        /\ PyFloat.lt (key a) 0 = true
        /\ (forall x, x ∈ xs -> PyFloat.lt (key x) (key a) = false)
        /\ (forall j x, j < i -> xs !! j = Some x ->
              PyFloat.le (key x) (key a) = false)
  end.

End RunningMin.

(** The [highest_decrease] of [find_extremes]: the sentinel [(0, 0)] when no
    delta is below zero; otherwise an entry whose delta no delta is below,
    and the first such entry (no earlier delta is as small). *)
Definition is_highest_decrease (differences : list (Z * float))
    (highest_decrease : Z * number) : Prop :=
  (highest_decrease = (0%Z, Int 0)
   /\ forall e, e ∈ differences -> PyFloat.lt e.2 0 = false)
  \/ exists i day delta,
       differences !! i = Some (day, delta)
       /\ highest_decrease = (day, Float delta)
       /\ PyFloat.lt delta 0 = true
       /\ (forall e, e ∈ differences -> PyFloat.lt e.2 delta = false)
       /\ (forall j e, j < i -> differences !! j = Some e ->
             PyFloat.le e.2 delta = false).

(** A delta that can move an extreme or be a deficit: one above or below
    zero.  A delta of zero and a delta that is not-a-number are neither. *)
Definition is_change (entry : Z * float) : bool :=
  PyFloat.gt entry.2 0 || PyFloat.lt entry.2 0.

(** An overhead record that can win: one with an amount above zero. *)
Definition is_positive (record : overheads.dict float) : bool :=
  PyFloat.gt (overheads.overhead record) 0.

(** What a reader makes of a row.  The field of [column] coerces to [v]:
    the row has the column, its field is a string, and [int] or [float]
    accepts it. *)
Definition coerces {V : Type} (coerce : string -> option V) (r : row) (column : string)
    (v : V) : Prop :=
  exists s, r !! column = Some (Some s) /\ coerce s = Some v.

(** Reading the field of [column] raises [e]: [KeyError] when the row has
    no such column, [TypeError] when the line was too short to have the
    field, [ValueError] when the field is no number. *)
Definition faults {V : Type} (coerce : string -> option V) (r : row) (column : string)
    (e : exn) : Prop :=
  (r !! column = None /\ e = KeyError column)
  \/ (r !! column = Some None /\ e = TypeError)
  \/ (exists s, r !! column = Some (Some s) /\ coerce s = None /\ e = ValueError).

(** A row of the cash or the profit file is read as [entry]; or reading it
    raises [e], the day being read first. *)
Definition day_value_of `{Builtins} (value_column : string) (r : row)
    (entry : Z * float) : Prop :=
  coerces py_int r "Day" entry.1 /\ coerces py_float r value_column entry.2.

Definition day_value_fault `{Builtins} (value_column : string) (r : row) (e : exn)
  : Prop :=
  faults py_int r "Day" e
  \/ ((exists day, coerces py_int r "Day" day) /\ faults py_float r value_column e).

(** A row of the overheads file is read as [record]: the field of
    [Category] as it is, [None] included, and the amount as a float; or
    reading it raises [e], the category being looked up first. *)
Definition overhead_of `{Builtins} (r : row) (record : overheads.dict float) : Prop :=
  r !! "Category" = Some (overheads.category record)
  /\ coerces py_float r "Overheads" (overheads.overhead record).

Definition overhead_fault `{Builtins} (r : row) (e : exn) : Prop :=
  (r !! "Category" = None /\ e = KeyError "Category")
  \/ ((exists field, r !! "Category" = Some field) /\ faults py_float r "Overheads" e).

(** The outcome of a reader on the file at [path]: it returns the records
    [data] of the rows, one per row and in file order, with the file opened
    and read to the end in the trace; or it raises [e], for want of the
    file, or at the first row that cannot be read, the rows before it having
    been read. *)
Definition returns_rows {V : Type} (of_row : row -> V -> Prop) (path : string)
    (w : world) (data : list V) (w' : world) : Prop :=
  exists rows, csv_files w !! path = Some rows
    /\ Forall2 of_row rows data
    /\ w' = extend w [Opened path; ReadAll path].

Definition raises_at_row {V : Type} (of_row : row -> V -> Prop)
    (fault : row -> exn -> Prop) (path : string) (w : world) (e : exn) (w' : world)
  : Prop :=
  (csv_files w !! path = None /\ e = FileNotFoundError path /\ w' = w)
  \/ exists good bad rest (data : list V),
       csv_files w !! path = Some (good ++ bad :: rest)
       /\ Forall2 of_row good data
       /\ fault bad e
       /\ w' = extend w [Opened path].

(** The three files were read as [cash_data], [overheads_data] and
    [profit_loss_data]: each exists, and every row of it is read as the
    record at its place. *)
Definition parsed `{Builtins} (w : world) (cash_data : list (Z * float))
    (overheads_data : list (overheads.dict float))
    (profit_loss_data : list (Z * float)) : Prop :=
  (exists rows, csv_files w !! cash_csv = Some rows
     /\ Forall2 (day_value_of "Cash On Hand") rows cash_data)
  /\ (exists rows, csv_files w !! overheads_csv = Some rows
        /\ Forall2 overhead_of rows overheads_data)
  /\ (exists rows, csv_files w !! profit_csv = Some rows
        /\ Forall2 (day_value_of "Net Profit") rows profit_loss_data).

(** What the statements of [generate_summary_report] after the reads make
    of the data: the analysis of each source and, from its results, the body
    of the [with]. *)
Definition composed `{Builtins} (cash_data : list (Z * float))
    (overheads_data : list (overheads.dict float))
    (profit_loss_data : list (Z * float)) : writer unit :=
  let cash_differences := differences_of cash_data in
  let '(cash_increase, _, cash_deficits) :=
    cash_on_hand.find_extremes cash_differences in
  let highest_overhead := overheads.find_highest_overhead overheads_data in
  let profit_differences := differences_of profit_loss_data in
  let '(profit_increase, _, profit_deficits) :=
    profit_and_loss.find_extremes profit_differences in
  main.report highest_overhead cash_differences cash_increase cash_deficits
              profit_differences profit_increase profit_deficits.

(** The world after a run that took every step, created the output file
    and wrote [written] to it. *)
Definition reported (w : world) (written : list string) : world :=
  World (csv_files w)
        (<[summary_txt := String.concat "" written]> (text_files w))
        (trace w ++ steps ++ Created summary_txt :: map (Wrote summary_txt) written).


(** The overheads file whose one line is too short to have a [Category]
    field (the header names the [Overheads] column first), beside the sample
    cash and profit files. *)
Definition short_overheads_rows : list row :=
  [ {[ "Overheads" := Some "40"; "Category" := None ]} ].

Definition short_files : world :=
  World (<[cash_csv := Sample.cash_rows]>
           (<[overheads_csv := short_overheads_rows]>
              {[profit_csv := Sample.profit_rows]}))
        ∅ [].






(** * The order of the floats

    [SFcompare] is lexicographic on sign, exponent and mantissa, so its
    [Lt] is transitive and its [Eq] an equivalence on the numbers that are
    not not-a-number. *)

Section SpecFloatOrder.

Ltac cmp_cases :=
  change (Pos.compare_cont Eq) with Pos.compare in *;
  repeat match goal with
  | H : context [(?a ?= ?b)%Z] |- _ => destruct (Z.compare_spec a b); simpl in H
  | |- context [(?a ?= ?b)%Z] => destruct (Z.compare_spec a b); simpl
  | H : context [(?a ?= ?b)%positive] |- _ =>
      destruct (Pos.compare_spec a b); simpl in H
  | |- context [(?a ?= ?b)%positive] => destruct (Pos.compare_spec a b); simpl
  end;
  subst; try discriminate; try reflexivity; try lia.

Ltac by_cases x y z :=
  destruct x as [[]|[]| |[] ? ?], y as [[]|[]| |[] ? ?], z as [[]|[]| |[] ? ?];
  simpl; try discriminate; try reflexivity;
  intros [= H1] [= H2]; f_equal; cmp_cases.

Lemma SFcompare_antisym x y c :
  SFcompare x y = Some c -> SFcompare y x = Some (CompOpp c).
Proof.
  destruct x as [[]|[]| |[] ? ?], y as [[]|[]| |[] ? ?]; simpl;
    try discriminate; intros [= <-]; try reflexivity; f_equal; cmp_cases.
Qed.

Lemma SFcompare_None x y :
  SFcompare x y = None <-> x = S754_nan \/ y = S754_nan.
Proof.
  destruct x as [?|?| |? ? ?], y as [?|?| |? ? ?]; simpl;
    split; intros H; try discriminate; try (destruct H; discriminate); auto.
Qed.

Lemma SFcompare_Lt_trans x y z :
  SFcompare x y = Some Lt -> SFcompare y z = Some Lt -> SFcompare x z = Some Lt.
Proof. by_cases x y z. Qed.

Lemma SFcompare_Lt_Eq_trans x y z :
  SFcompare x y = Some Lt -> SFcompare y z = Some Eq -> SFcompare x z = Some Lt.
Proof. by_cases x y z. Qed.

Lemma SFcompare_Eq_Lt_trans x y z :
  SFcompare x y = Some Eq -> SFcompare y z = Some Lt -> SFcompare x z = Some Lt.
Proof. by_cases x y z. Qed.

Lemma SFcompare_Eq_trans x y z :
  SFcompare x y = Some Eq -> SFcompare y z = Some Eq -> SFcompare x z = Some Eq.
Proof. by_cases x y z. Qed.

End SpecFloatOrder.

(** The same facts for Python's comparison operators. *)

Module PyFloatFacts.
Import PyFloat.

Definition cmp (x y : float) : option comparison :=
  SFcompare (Prim2SF x) (Prim2SF y).

Lemma lt_cmp x y : lt x y = true <-> cmp x y = Some Lt.
Proof.
  unfold lt, cmp. rewrite ltb_spec. unfold SFltb.
  destruct (SFcompare _ _) as [[]|]; split; congruence.
Qed.

Lemma le_cmp x y : le x y = true <-> cmp x y = Some Lt \/ cmp x y = Some Eq.
Proof.
  unfold le, cmp. rewrite leb_spec. unfold SFleb.
  destruct (SFcompare _ _) as [[]|]; split; try tauto; try congruence;
    intros [?|?]; congruence.
Qed.

Lemma eq_cmp x y : eq x y = true <-> cmp x y = Some Eq.
Proof.
  unfold eq, cmp. rewrite FloatAxioms.eqb_spec. unfold SFeqb.
  destruct (SFcompare _ _) as [[]|]; split; congruence.
Qed.

Lemma cmp_antisym x y c : cmp x y = Some c -> cmp y x = Some (CompOpp c).
Proof. apply SFcompare_antisym. Qed.

Lemma cmp_refl x : is_nan x = false -> cmp x x = Some Eq.
Proof.
  unfold is_nan. intros H. apply negb_false_iff in H. by apply eq_cmp.
Qed.

Lemma cmp_nan_l x y : is_nan x = true -> cmp x y = None.
Proof.
  unfold is_nan. intros H. apply negb_true_iff in H.
  assert (Hx : cmp x x = None \/ Prim2SF x = S754_nan).
  { destruct (cmp x x) as [c|] eqn:E; [|by left]. right.
    assert (c <> Eq) by (intros ->; apply eq_cmp in E; unfold eq in E; congruence).
    unfold cmp in E. pose proof (SFcompare_antisym _ _ _ E) as E'.
    rewrite E in E'. destruct c; simpl in E'; congruence. }
  destruct Hx as [Hx|Hx].
  - apply SFcompare_None in Hx. apply SFcompare_None. tauto.
  - apply SFcompare_None. by left.
Qed.

Lemma cmp_Some x y :
  is_nan x = false -> is_nan y = false -> exists c, cmp x y = Some c.
Proof.
  intros Hx Hy. destruct (cmp x y) as [c|] eqn:E; [by exists c|].
  apply SFcompare_None in E as [E|E].
  - apply cmp_refl in Hx. unfold cmp in Hx. rewrite E in Hx. discriminate.
  - apply cmp_refl in Hy. unfold cmp in Hy. rewrite E in Hy. discriminate.
Qed.

Lemma cmp_not_nan x y c : cmp x y = Some c -> is_nan x = false /\ is_nan y = false.
Proof.
  intros E. split.
  - destruct (is_nan x) eqn:N; [|done]. rewrite (cmp_nan_l x y N) in E. discriminate.
  - destruct (is_nan y) eqn:N; [|done]. apply cmp_antisym in E.
    rewrite (cmp_nan_l y x N) in E. discriminate.
Qed.

(** [<] is a strict order, [<=] its reflexive closure away from
    not-a-number. *)

Lemma lt_irrefl x : lt x x = false.
Proof.
  destruct (lt x x) eqn:E; [|done]. apply lt_cmp in E.
  pose proof (cmp_antisym _ _ _ E) as E'. rewrite E in E'. discriminate.
Qed.

Lemma lt_trans x y z : lt x y = true -> lt y z = true -> lt x z = true.
Proof. rewrite !lt_cmp. apply SFcompare_Lt_trans. Qed.

Lemma lt_le x y : lt x y = true -> le x y = true.
Proof. rewrite lt_cmp, le_cmp. tauto. Qed.

Lemma lt_le_trans x y z : lt x y = true -> le y z = true -> lt x z = true.
Proof.
  rewrite !lt_cmp, le_cmp. intros Hxy [Hyz|Hyz].
  - by eapply SFcompare_Lt_trans.
  - by eapply SFcompare_Lt_Eq_trans.
Qed.

Lemma le_lt_trans x y z : le x y = true -> lt y z = true -> lt x z = true.
Proof.
  rewrite !lt_cmp, le_cmp. intros [Hxy|Hxy] Hyz.
  - by eapply SFcompare_Lt_trans.
  - by eapply SFcompare_Eq_Lt_trans.
Qed.

Lemma le_trans x y z : le x y = true -> le y z = true -> le x z = true.
Proof.
  intros H1 H2. apply le_cmp in H2 as [H2|H2].
  - apply lt_le. eapply le_lt_trans; [done|]. by apply lt_cmp.
  - apply le_cmp in H1 as [H1|H1]; apply le_cmp.
    + left. by eapply SFcompare_Lt_Eq_trans.
    + right. by eapply SFcompare_Eq_trans.
Qed.

Lemma lt_asym x y : lt x y = true -> lt y x = false.
Proof.
  intros H. destruct (lt y x) eqn:E; [|done].
  pose proof (lt_trans _ _ _ H E) as F. rewrite lt_irrefl in F. discriminate.
Qed.

Lemma le_not_gt x y : le x y = true -> lt y x = false.
Proof.
  intros H. destruct (lt y x) eqn:E; [|done].
  pose proof (lt_le_trans _ _ _ E H) as F. rewrite lt_irrefl in F. discriminate.
Qed.

Lemma lt_not_ge x y : lt x y = true -> le y x = false.
Proof.
  intros H. destruct (le y x) eqn:E; [|done].
  apply le_not_gt in E. congruence.
Qed.

Lemma lt_not_nan x y : lt x y = true -> is_nan x = false /\ is_nan y = false.
Proof. rewrite lt_cmp. apply cmp_not_nan. Qed.

Lemma le_not_nan x y : le x y = true -> is_nan x = false /\ is_nan y = false.
Proof. rewrite le_cmp. intros [?|?]; by eapply cmp_not_nan. Qed.


(** Two numbers that are not not-a-number are comparable. *)
Lemma not_lt_ge x y :
  is_nan x = false -> is_nan y = false -> lt x y = false -> le y x = true.
Proof.
  intros Hx Hy H. destruct (cmp_Some x y Hx Hy) as [c E].
  pose proof (cmp_antisym _ _ _ E) as E'. apply le_cmp.
  destruct c; simpl in E'; auto.
  apply lt_cmp in E. congruence.
Qed.

Lemma eq_le x y : eq x y = true -> le x y = true.
Proof. rewrite eq_cmp, le_cmp. tauto. Qed.

Lemma eq_sym x y : eq x y = true -> eq y x = true.
Proof. rewrite !eq_cmp. intros H. by apply cmp_antisym in H. Qed.

Lemma eq_not_lt x y : eq x y = true -> lt x y = false.
Proof.
  intros H. apply le_not_gt, eq_le, eq_sym, H.
Qed.

Lemma nan_not_lt_l x y : is_nan x = true -> lt x y = false.
Proof.
  intros H. destruct (lt x y) eqn:E; [|done].
  apply lt_not_nan in E as [E _]. congruence.
Qed.

Lemma nan_not_le_r x y : is_nan y = true -> le x y = false.
Proof.
  intros H. destruct (le x y) eqn:E; [|done].
  apply le_not_nan in E as [_ E]. congruence.
Qed.

Lemma eq_trans x y z : eq x y = true -> eq y z = true -> eq x z = true.
Proof. rewrite !eq_cmp. apply SFcompare_Eq_trans. Qed.

Lemma eq_not_nan x y : eq x y = true -> is_nan x = false /\ is_nan y = false.
Proof. rewrite eq_cmp. apply cmp_not_nan. Qed.

Lemma eq_lt_l x y z : eq x y = true -> lt x z = lt y z.
Proof.
  intros E. destruct (lt y z) eqn:L.
  - apply lt_cmp. apply eq_cmp in E. apply lt_cmp in L.
    by eapply SFcompare_Eq_Lt_trans.
  - destruct (lt x z) eqn:L'; [|done].
    apply eq_sym, eq_cmp in E. apply lt_cmp in L'.
    pose proof (SFcompare_Eq_Lt_trans _ _ _ E L') as F.
    apply lt_cmp in F. congruence.
Qed.

Lemma gt_lt x y : gt x y = lt y x.
Proof. reflexivity. Qed.

Lemma ge_le x y : ge x y = le y x.
Proof. reflexivity. Qed.

Lemma to_float_zero : to_float (Int 0) = 0%float.
Proof. reflexivity. Qed.

Lemma zero_not_nan : is_nan 0 = false.
Proof. reflexivity. Qed.

End PyFloatFacts.

(** * The Difference Engine *)

Lemma getitem_Some {A : Type} (l : list A) i x : l !! i = Some x -> getitem l i = Ok x.
Proof. unfold getitem. by intros ->. Qed.

Lemma for_each_cons {A S : Type} (x : A) xs (body : S -> A -> result S) s :
  for_each (x :: xs) body s = body s x ≫= for_each xs body.
Proof. reflexivity. Qed.

Lemma differences_of_drop (data : list (Z * float)) i prev cur :
  data !! i = Some prev -> data !! S i = Some cur ->
  differences_of (drop i data)
  = (cur.1, (cur.2 - prev.2)%float) :: differences_of (drop (S i) data).
Proof.
  intros Hp Hc. rewrite (drop_S _ _ _ Hp), (drop_S _ _ _ Hc). reflexivity.
Qed.

Lemma differences_of_last (data : list (Z * float)) :
  differences_of (drop (length data - 1) data) = [].
Proof.
  destruct (drop (length data - 1) data) as [|x [|y r]] eqn:E; try reflexivity.
  apply (f_equal length) in E. rewrite length_drop in E. simpl in E. lia.
Qed.

Lemma differences_of_length data : length (differences_of data) = length data - 1.
Proof.
  induction data as [|prev [|cur rest] IH]; try reflexivity.
  change (S (length (differences_of (cur :: rest)))
          = length (prev :: cur :: rest) - 1).
  rewrite IH. simpl. lia.
Qed.

Lemma differences_of_lookup data i prev cur :
  data !! i = Some prev -> data !! S i = Some cur ->
  differences_of data !! i = Some (cur.1, (cur.2 - prev.2)%float).
Proof.
  revert data. induction i as [|i IH]; intros [|p [|c rest]]; try discriminate.
  - intros [= ->] [= ->]. reflexivity.
  - intros Hp Hc. apply (IH (c :: rest)); assumption.
Qed.

(** The loop of [cash_on_hand.compute_differences] never raises: its
    indices stay in range, and it builds [differences_of]. *)
Lemma cash_compute_differences_eq data :
  cash_on_hand.compute_differences data = Ok (differences_of data).
Proof.
  unfold cash_on_hand.compute_differences, range.
  set (body := fun differences i => _).
  assert (loop : forall n a acc, 1 <= a -> a + n = length data ->
    for_each (seq a n) body acc = Ok (acc ++ differences_of (drop (a - 1) data))).
  { induction n as [|n IH]; intros a acc Ha Hlen.
    - simpl. replace (a - 1) with (length data - 1) by lia.
      by rewrite differences_of_last, app_nil_r.
    - destruct (lookup_lt_is_Some_2 data a) as [cur Hc]; [lia|].
      destruct (lookup_lt_is_Some_2 data (a - 1)) as [prev Hp]; [lia|].
      change (seq a (S n)) with (a :: seq (S a) n). rewrite for_each_cons.
      assert (Hb : body acc a = Ok (acc ++ [(cur.1, (cur.2 - prev.2)%float)])).
      { unfold body. by rewrite (getitem_Some _ _ _ Hc), (getitem_Some _ _ _ Hp). }
      rewrite Hb. simpl. rewrite IH by lia.
      replace (S a - 1) with (S (a - 1)) by lia.
      replace a with (S (a - 1)) in Hc by lia.
      rewrite (differences_of_drop _ _ _ _ Hp Hc).
      by rewrite <- app_assoc. }
  destruct data as [|d data].
  - reflexivity.
  - rewrite (loop (length (d :: data) - 1) 1 []); simpl; try lia.
    reflexivity.
Qed.

(** So does the loop of [profit_and_loss.compute_differences]. *)
Lemma profit_compute_differences_eq data :
  profit_and_loss.compute_differences data = Ok (differences_of data).
Proof.
  unfold profit_and_loss.compute_differences, range.
  set (body := fun differences i => _).
  assert (loop : forall n a acc, 1 <= a -> a + n = length data ->
    for_each (seq a n) body acc = Ok (acc ++ differences_of (drop (a - 1) data))).
  { induction n as [|n IH]; intros a acc Ha Hlen.
    - simpl. replace (a - 1) with (length data - 1) by lia.
      by rewrite differences_of_last, app_nil_r.
    - destruct (lookup_lt_is_Some_2 data a) as [[current_day current_profit] Hc];
        [lia|].
      destruct (lookup_lt_is_Some_2 data (a - 1)) as [[d previous_profit] Hp]; [lia|].
      change (seq a (S n)) with (a :: seq (S a) n). rewrite for_each_cons.
      assert (Hb : body acc a
                   = Ok (acc ++ [(current_day, (current_profit - previous_profit)%float)])).
      { unfold body. by rewrite (getitem_Some _ _ _ Hc), (getitem_Some _ _ _ Hp). }
      rewrite Hb. simpl. rewrite IH by lia.
      replace (S a - 1) with (S (a - 1)) by lia.
      replace a with (S (a - 1)) in Hc by lia.
      rewrite (differences_of_drop _ _ _ _ Hp Hc).
      by rewrite <- app_assoc. }
  destruct data as [|d data].
  - reflexivity.
  - rewrite (loop (length (d :: data) - 1) 1 []); simpl; try lia.
    reflexivity.
Qed.

(** C1, as amended.  For every input sequence of [(day, value)] pairs of
    length [N], both versions of [compute_differences] return, without
    raising, a sequence of exactly [N - 1] entries (none when [N <= 1]) whose
    entry [i] is the pair of [day[i+1]] and the float difference
    [value[i+1] - value[i]]. *)
Theorem compute_differences_entries (data : list (Z * float)) :
  exists differences,
    cash_on_hand.compute_differences data = Ok differences
    /\ profit_and_loss.compute_differences data = Ok differences
    /\ length differences = length data - 1
    /\ forall i prev cur,
         data !! i = Some prev -> data !! S i = Some cur ->
         differences !! i = Some (cur.1, (cur.2 - prev.2)%float).
Proof.
  exists (differences_of data). split; [|split; [|split]].
  - apply cash_compute_differences_eq.
  - apply profit_compute_differences_eq.
  - apply differences_of_length.
  - apply differences_of_lookup.
Qed.

(** C1, as stated, fails: the subtraction rounds, so adding the delta back
    to the previous value need not give the value.  With the cash figures
    0.03 and 0.3 the delta is 0.27 and [0.27 + 0.03] is
    [0.30000000000000004]. *)
Lemma compute_differences_identity_fails :
  exists differences day delta prev cur,
    cash_on_hand.compute_differences Sample.rounding_cash = Ok differences
    /\ profit_and_loss.compute_differences Sample.rounding_cash = Ok differences
    /\ differences !! 0 = Some (day, delta)
    /\ Sample.rounding_cash !! 0 = Some prev
    /\ Sample.rounding_cash !! 1 = Some cur
    /\ PyFloat.eq (delta + prev.2)%float cur.2 = false.
Proof.
  exists (differences_of Sample.rounding_cash), 2%Z,
    (0x1.3333333333333p-2 - 0x1.eb851eb851eb8p-6)%float,
    (1%Z, 0x1.eb851eb851eb8p-6%float), (2%Z, 0x1.3333333333333p-2%float).
  split; [apply cash_compute_differences_eq|].
  split; [apply profit_compute_differences_eq|].
  repeat split; vm_compute; reflexivity.
Qed.

(** C8.  The cash and the profit copies of the two routines return the
    same result on every input. *)
Theorem cash_and_profit_routines_agree :
  (forall data,
     cash_on_hand.compute_differences data = profit_and_loss.compute_differences data)
  /\ (forall differences,
        cash_on_hand.find_extremes differences
        = profit_and_loss.find_extremes differences).
Proof.
  split.
  - intros data.
    by rewrite cash_compute_differences_eq, profit_compute_differences_eq.
  - intros differences. reflexivity.
Qed.

(** * Running maxima *)

Section RunningMaxFacts.
Import PyFloat PyFloatFacts.
Context {A : Type} (key : A -> float).

Lemma floor_of_lower xs best x :
  is_running_max key xs best -> x ∈ xs -> gt (key x) (floor_of key best) = false.
Proof.
  destruct best as [a|]; simpl.
  - intros (i & _ & _ & H & _). apply H.
  - intros H. apply H.
Qed.

Lemma floor_of_nonneg xs best :
  is_running_max key xs best -> le 0 (floor_of key best) = true.
Proof.
  destruct best as [a|]; simpl.
  - intros (i & _ & H & _). by apply lt_le.
  - intros _. reflexivity.
Qed.

Lemma running_max_snoc xs best x :
  is_running_max key xs best ->
  is_running_max key (xs ++ [x]) (best_step key best x).
Proof.
  intros Hb. unfold best_step.
  destruct (gt (key x) (floor_of key best)) eqn:Hx.
  - exists (length xs). rewrite gt_lt in Hx. split; [|split; [|split]].
    + by rewrite lookup_app_r, Nat.sub_diag by lia.
    + eapply le_lt_trans; [by eapply floor_of_nonneg|done].
    + intros y [Hy| ->%list_elem_of_singleton]%elem_of_app.
      * rewrite gt_lt. destruct (lt (key x) (key y)) eqn:E; [|done].
        pose proof (floor_of_lower _ _ _ Hb Hy) as F. rewrite gt_lt in F.
        by rewrite (lt_trans _ _ _ Hx E) in F.
      * apply lt_irrefl.
    + intros j y Hj Hy. rewrite lookup_app_l in Hy by done.
      rewrite ge_le. destruct (le (key x) (key y)) eqn:E; [|done].
      pose proof (floor_of_lower _ _ _ Hb (list_elem_of_lookup_2 _ _ _ Hy)) as F.
      rewrite gt_lt in F. by rewrite (lt_le_trans _ _ _ Hx E) in F.
  - destruct best as [a|]; simpl in *.
    + destruct Hb as (i & Hi & Ha & Hall & Hfirst). exists i.
      split; [|split; [|split]].
      * by apply lookup_app_l_Some.
      * done.
      * intros y [Hy| ->%list_elem_of_singleton]%elem_of_app; auto.
      * intros j y Hj Hy. apply (Hfirst j y Hj).
        rewrite lookup_app_l in Hy; [done|].
        apply lookup_lt_Some in Hi. lia.
    + intros y [Hy| ->%list_elem_of_singleton]%elem_of_app; auto.
Qed.

Lemma fold_best_step xs ys best :
  is_running_max key xs best ->
  is_running_max key (xs ++ ys) (fold_left (best_step key) ys best).
Proof.
  revert xs best. induction ys as [|y ys IH]; intros xs best Hb; simpl.
  - by rewrite app_nil_r.
  - replace (xs ++ y :: ys) with ((xs ++ [y]) ++ ys) by by rewrite <- app_assoc.
    apply IH. by apply running_max_snoc.
Qed.

Lemma running_max_spec xs : is_running_max key xs (running_max key xs).
Proof.
  apply (fold_best_step [] xs None). intros x Hx. by apply elem_of_nil in Hx.
Qed.

(** No key above zero: the sentinel stays. *)
Lemma running_max_none xs :
  (forall x, x ∈ xs -> gt (key x) 0 = false) -> running_max key xs = None.
Proof.
  intros H. pose proof (running_max_spec xs) as Hs.
  destruct (running_max key xs) as [a|]; [|done].
  destruct Hs as (i & Hi & Ha & _). apply list_elem_of_lookup_2 in Hi.
  specialize (H a Hi). rewrite gt_lt in H. congruence.
Qed.

End RunningMaxFacts.

(** * The Extremes Finder *)

Section ExtremesFacts.
Import PyFloat PyFloatFacts.

Abbreviation init := ((0%Z, Int 0), (0%Z, Int 0), @nil (Z * float)).

Lemma fold_left_step {S E : Type} (f : S -> E -> S) e es s :
  fold_left f (e :: es) s = fold_left f es (f s e).
Proof. reflexivity. Qed.

Lemma scan_eq (hi lo : Z * number) defs day d :
  cash_on_hand.scan (hi, lo, defs) (day, d)
  = (if gt d (to_float hi.2) then (day, Float d) else hi,
     if gt d (to_float hi.2) then lo
     else if lt d (to_float lo.2) then (day, Float d) else lo,
     if is_deficit (day, d) then defs ++ [(day, d)] else defs).
Proof.
  unfold cash_on_hand.scan, is_deficit. simpl.
  destruct (gt d (to_float hi.2)); [reflexivity|].
  destruct (lt d (to_float lo.2)); reflexivity.
Qed.

Lemma scan_unguarded_eq (hi lo : Z * number) defs day d :
  scan_unguarded (hi, lo, defs) (day, d)
  = (if gt d (to_float hi.2) then (day, Float d) else hi,
     if lt d (to_float lo.2) then (day, Float d) else lo,
     if is_deficit (day, d) then defs ++ [(day, d)] else defs).
Proof. reflexivity. Qed.

Lemma to_float_as_extreme b : to_float (as_extreme b).2 = floor_of snd b.
Proof. destruct b as [[]|]; reflexivity. Qed.

Lemma scan_highest ds b lo defs :
  (fold_left cash_on_hand.scan ds (as_extreme b, lo, defs)).1.1
  = as_extreme (fold_left (best_step snd) ds b).
Proof.
  revert b lo defs. induction ds as [|[day d] ds IH]; intros b lo defs; [done|].
  rewrite fold_left_step, scan_eq, to_float_as_extreme.
  replace (fold_left (best_step snd) ((day, d) :: ds) b)
    with (fold_left (best_step snd) ds (best_step snd b (day, d))) by done.
  unfold best_step at 2. simpl snd.
  destruct (gt d (floor_of snd b)).
  - apply (IH (Some (day, d))).
  - apply IH.
Qed.

Lemma scan_deficits ds (hi lo : Z * number) defs :
  (fold_left cash_on_hand.scan ds (hi, lo, defs)).2
  = defs ++ List.filter is_deficit ds.
Proof.
  revert hi lo defs. induction ds as [|[day d] ds IH]; intros hi lo defs.
  - by rewrite app_nil_r.
  - rewrite fold_left_step, scan_eq, IH. simpl List.filter.
    destruct (is_deficit (day, d)); [|done]. by rewrite <- app_assoc.
Qed.

Lemma find_extremes_eq ds :
  cash_on_hand.find_extremes ds
  = ((fold_left cash_on_hand.scan ds init).1.1,
     (fold_left cash_on_hand.scan ds init).1.2,
     take 3 (py_sorted snd (List.filter is_deficit ds))).
Proof.
  unfold cash_on_hand.find_extremes.
  pose proof (scan_deficits ds (0%Z, Int 0) (0%Z, Int 0) []) as Hd.
  destruct (fold_left _ _ _) as [[hi lo] defs]. simpl in *. by subst.
Qed.

Lemma highest_increase_spec ds :
  is_highest_increase ds (cash_on_hand.find_extremes ds).1.1.
Proof.
  rewrite find_extremes_eq. simpl.
  rewrite (scan_highest ds None). fold (running_max snd ds).
  pose proof (running_max_spec snd ds) as H.
  destruct (running_max snd ds) as [[day d]|]; simpl in *.
  - right. destruct H as (i & ?). exists i, day, d. tauto.
  - left. done.
Qed.

(** The invariant of the scan. *)
Lemma invariant_init : extremes_invariant init.
Proof. split; reflexivity. Qed.

Lemma invariant_scan st entry :
  extremes_invariant st -> extremes_invariant (cash_on_hand.scan st entry).
Proof.
  destruct st as [[hi lo] defs], entry as [day d]. unfold extremes_invariant.
  rewrite scan_eq. cbn [fst snd]. intros [Hhi Hlo].
  destruct (gt d (to_float hi.2)) eqn:E.
  - split; [|done]. cbn [to_float snd]. rewrite ge_le, gt_lt in *.
    apply lt_le. by eapply le_lt_trans.
  - split; [done|]. destruct (lt d (to_float lo.2)) eqn:F; [|done].
    cbn [to_float snd]. apply lt_le. by eapply lt_le_trans.
Qed.

Lemma invariant_fold ds st :
  extremes_invariant st -> extremes_invariant (fold_left cash_on_hand.scan ds st).
Proof.
  revert st. induction ds as [|e ds IH]; intros st H; [done|].
  rewrite fold_left_step. by apply IH, invariant_scan.
Qed.

(** Under the invariant no delta is above the maximum and below the
    minimum at once. *)
Lemma invariant_exclusive st d :
  extremes_invariant st ->
  gt d (to_float st.1.1.2) = true -> lt d (to_float st.1.2.2) = true -> False.
Proof.
  intros [Hhi Hlo] Hgt Hlt. rewrite ge_le, gt_lt in *.
  pose proof (le_lt_trans _ _ _ Hhi Hgt) as Hpos.
  pose proof (lt_le_trans _ _ _ Hlt Hlo) as Hneg.
  pose proof (lt_trans _ _ _ Hpos Hneg) as F. by rewrite lt_irrefl in F.
Qed.

Lemma scan_unguarded_scan st entry :
  extremes_invariant st -> scan_unguarded st entry = cash_on_hand.scan st entry.
Proof.
  intros Hinv. destruct st as [[hi lo] defs], entry as [day d].
  rewrite scan_eq, scan_unguarded_eq.
  destruct (gt d (to_float hi.2)) eqn:E; [|done].
  destruct (lt d (to_float lo.2)) eqn:F; [|done].
  destruct (invariant_exclusive _ d Hinv E F).
Qed.

Lemma fold_scan_unguarded ds st :
  extremes_invariant st ->
  fold_left scan_unguarded ds st = fold_left cash_on_hand.scan ds st.
Proof.
  revert st. induction ds as [|e ds IH]; intros st H; [done|].
  rewrite !fold_left_step, scan_unguarded_scan by done. by apply IH, invariant_scan.
Qed.

Lemma find_extremes_unguarded_eq ds :
  find_extremes_unguarded ds = cash_on_hand.find_extremes ds.
Proof.
  unfold find_extremes_unguarded, cash_on_hand.find_extremes.
  by rewrite fold_scan_unguarded by apply invariant_init.
Qed.

End ExtremesFacts.

(** C2.  [find_extremes] (both versions) seeds its running maximum with
    the sentinel [(0, 0)].  On a delta sequence in which every delta is
    [<= 0] (in particular, negative) the returned [highest_increase] is
    exactly [(0, 0)].  On every delta sequence it is the sentinel or an entry
    of greatest delta, and among the entries that tie for the greatest delta
    the first one: no earlier entry has a delta as large. *)
Theorem highest_increase_sentinel_and_ties (differences : list (Z * float)) :
  (Forall (fun e => PyFloat.le e.2 0 = true) differences ->
     (cash_on_hand.find_extremes differences).1.1 = (0%Z, Int 0)
     /\ (profit_and_loss.find_extremes differences).1.1 = (0%Z, Int 0))
  /\ is_highest_increase differences (cash_on_hand.find_extremes differences).1.1
  /\ is_highest_increase differences (profit_and_loss.find_extremes differences).1.1.
Proof.
  assert (Hp : profit_and_loss.find_extremes differences
               = cash_on_hand.find_extremes differences) by reflexivity.
  rewrite Hp. split; [|split; apply highest_increase_spec].
  intros Hall. assert (H : (cash_on_hand.find_extremes differences).1.1 = (0%Z, Int 0)).
  { rewrite find_extremes_eq. cbn [fst]. rewrite (scan_highest differences None).
    fold (running_max snd differences). rewrite running_max_none; [done|].
    intros e He. rewrite Forall_forall in Hall.
    apply PyFloatFacts.le_not_gt, Hall, He. }
  by rewrite H.
Qed.

Lemma highest_increase_sentinel_witness :
  (cash_on_hand.find_extremes [(2%Z, (-5)%float); (3%Z, 0%float); (4%Z, (-1)%float)]).1.1
    = (0%Z, Int 0)
  /\ (profit_and_loss.find_extremes
        [(2%Z, (-5)%float); (3%Z, 0%float); (4%Z, (-1)%float)]).1.1
     = (0%Z, Int 0).
Proof.
  apply (proj1 (highest_increase_sentinel_and_ties
                  [(2%Z, (-5)%float); (3%Z, 0%float); (4%Z, (-1)%float)])).
  repeat constructor.
Defined.

(** C10.  At every step of the scan of [find_extremes], from the [(0, 0)]
    sentinels on, the running maximum is [>= 0] and the running minimum
    [<= 0]; so are [highest_increase] and [highest_decrease] in the result.
    Hence no delta is above the running maximum and below the running
    minimum at once, and the scan returns what the scan with an unguarded,
    independent [if] for the minimum returns. *)
Theorem extremes_invariant_and_elif (differences : list (Z * float)) :
  (forall n,
     extremes_invariant (fold_left cash_on_hand.scan (take n differences) initially)
     /\ extremes_invariant
          (fold_left profit_and_loss.scan (take n differences) initially))
  /\ (forall n delta,
        let st := fold_left cash_on_hand.scan (take n differences) initially in
        ~ (PyFloat.gt delta (to_float st.1.1.2) = true
           /\ PyFloat.lt delta (to_float st.1.2.2) = true))
  /\ (let '(highest_increase, highest_decrease, _) :=
        cash_on_hand.find_extremes differences in
      PyFloat.ge (to_float highest_increase.2) 0 = true
      /\ PyFloat.le (to_float highest_decrease.2) 0 = true)
  /\ cash_on_hand.find_extremes differences = find_extremes_unguarded differences
  /\ profit_and_loss.find_extremes differences = find_extremes_unguarded differences.
Proof.
  split; [|split; [|split; [|split]]].
  - intros n. split; apply invariant_fold, invariant_init.
  - intros n delta st [Hgt Hlt].
    apply (invariant_exclusive st delta); [|done|done].
    apply invariant_fold, invariant_init.
  - rewrite find_extremes_eq.
    apply (invariant_fold differences), invariant_init.
  - symmetry. apply find_extremes_unguarded_eq.
  - symmetry. apply find_extremes_unguarded_eq.
Qed.

(** * The Overhead Ranker *)

Section OverheadFacts.
Import PyFloat PyFloatFacts overheads.

Lemma to_float_as_dict b : to_float (overhead (as_dict b)) = floor_of overhead b.
Proof. destruct b; reflexivity. Qed.

Lemma scan_as_dict b d : scan (as_dict b) d = as_dict (best_step overhead b d).
Proof.
  unfold scan, best_step. rewrite to_float_as_dict.
  by destruct (gt (overhead d) (floor_of overhead b)).
Qed.

Lemma fold_scan_as_dict records b :
  fold_left scan records (as_dict b)
  = as_dict (fold_left (best_step overhead) records b).
Proof.
  revert b. induction records as [|d records IH]; intros b; [done|].
  by rewrite !fold_left_step, scan_as_dict, IH.
Qed.

Lemma find_highest_overhead_eq records :
  find_highest_overhead records = as_dict (running_max overhead records).
Proof. apply (fold_scan_as_dict records None). Qed.

Lemma highest_overhead_spec records :
  is_highest_overhead records (find_highest_overhead records).
Proof.
  rewrite find_highest_overhead_eq.
  pose proof (running_max_spec overhead records) as H.
  destruct (running_max overhead records) as [d|]; simpl in *.
  - right. destruct H as (i & ?). exists i, d. tauto.
  - left. done.
Qed.

(** The amount returned is never not-a-number. *)
Lemma highest_overhead_not_nan records :
  is_nan (to_float (overhead (find_highest_overhead records))) = false.
Proof.
  destruct (highest_overhead_spec records) as [[-> _]|(i & d & _ & -> & H & _)].
  - reflexivity.
  - by apply lt_not_nan in H as [_ H].
Qed.

Lemma highest_overhead_upper records d :
  d ∈ records ->
  gt (overhead d) (to_float (overhead (find_highest_overhead records))) = false.
Proof.
  intros Hd.
  destruct (highest_overhead_spec records) as [[-> H]|(i & m & _ & -> & _ & H & _)];
    by apply H.
Qed.

End OverheadFacts.

(** C6, as amended.  For every sequence of overhead records,
    [find_highest_overhead] returns a record whose amount no amount of the
    input exceeds, and which is [>=] the amount of every record whose amount
    is a number (not not-a-number).  It is seeded with the sentinel
    [{category: '', amount: 0}], which is returned when every amount is
    [<= 0]; among records that tie for the greatest amount the first one is
    kept. *)
Theorem highest_overhead_is_maximal (records : list (overheads.dict float)) :
  let highest := overheads.find_highest_overhead records in
  (forall d, d ∈ records ->
     PyFloat.gt (overheads.overhead d) (to_float (overheads.overhead highest)) = false)
  /\ (forall d, d ∈ records -> PyFloat.is_nan (overheads.overhead d) = false ->
        PyFloat.ge (to_float (overheads.overhead highest)) (overheads.overhead d) = true)
  /\ (Forall (fun d => PyFloat.le (overheads.overhead d) 0 = true) records ->
        highest = overheads.Dict (Some "") (Int 0))
  /\ is_highest_overhead records highest.
Proof.
  cbv zeta. split; [|split; [|split]].
  - apply highest_overhead_upper.
  - intros d Hd Hnan. apply PyFloatFacts.not_lt_ge; [| done |].
    + apply highest_overhead_not_nan.
    + by apply highest_overhead_upper.
  - intros Hall. rewrite find_highest_overhead_eq, running_max_none; [done|].
    intros d Hd. rewrite Forall_forall in Hall.
    apply PyFloatFacts.le_not_gt, Hall, Hd.
  - apply highest_overhead_spec.
Qed.

Lemma highest_overhead_sentinel_witness :
  overheads.find_highest_overhead
    [overheads.Dict (Some "Refund") (-3)%float; overheads.Dict (Some "None") 0%float]
  = overheads.Dict (Some "") (Int 0).
Proof.
  apply (proj1 (proj2 (proj2 (highest_overhead_is_maximal
    [overheads.Dict (Some "Refund") (-3)%float; overheads.Dict (Some "None") 0%float])))).
  repeat constructor.
Defined.

(** C6, as stated, fails: an amount that is not-a-number ([float("nan")])
    is never the maximum, and nothing is [>=] it.  Of the records Rent 40.0
    and Misc nan the Rent record is returned, and [40.0 >= nan] is false. *)
Lemma highest_overhead_not_above_nan :
  exists d,
    d ∈ [overheads.Dict (Some "Rent") 40%float; overheads.Dict (Some "Misc") PyFloat.nan]
    /\ overheads.find_highest_overhead
         [overheads.Dict (Some "Rent") 40%float; overheads.Dict (Some "Misc") PyFloat.nan]
       = overheads.Dict (Some "Rent") (Float 40)
    /\ PyFloat.ge (to_float (overheads.overhead
                     (overheads.find_highest_overhead
                        [overheads.Dict (Some "Rent") 40%float;
                         overheads.Dict (Some "Misc") PyFloat.nan])))
                  (overheads.overhead d) = false.
Proof.
  exists (overheads.Dict (Some "Misc") PyFloat.nan). split; [|split].
  - apply list_elem_of_In. right. left. reflexivity.
  - reflexivity.
  - reflexivity.
Qed.

(** * The sort *)

Section PySortedFacts.
Import PyFloat PyFloatFacts.
Context {A : Type} (key : A -> float).

Abbreviation ordered := (StronglySorted (fun a b => le (key a) (key b) = true)).
Abbreviation numeric := (Forall (fun a => is_nan (key a) = false)).

Lemma insert_by_perm x l : Permutation (insert_by key x l) (x :: l).
Proof.
  induction l as [|y l IH]; simpl; [done|].
  destruct (lt (key y) (key x)); [|done].
  rewrite IH. apply perm_swap.
Qed.

Lemma py_sorted_perm l : Permutation (py_sorted key l) l.
Proof.
  induction l as [|x l IH]; simpl; [done|].
  rewrite insert_by_perm. by constructor.
Qed.

Lemma py_sorted_length l : length (py_sorted key l) = length l.
Proof. apply Permutation_length, py_sorted_perm. Qed.

Lemma insert_by_ordered x l :
  is_nan (key x) = false -> numeric l -> ordered l -> ordered (insert_by key x l).
Proof.
  intros Hx Hl Hs. induction l as [|y l IH]; simpl.
  - repeat constructor.
  - apply Forall_cons in Hl as [Hy Hl]. apply StronglySorted_inv in Hs as [Hs Hall].
    destruct (lt (key y) (key x)) eqn:E.
    + constructor; [by apply IH|].
      rewrite insert_by_perm. constructor; [by apply lt_le|done].
    + assert (Hxy : le (key x) (key y) = true) by by apply not_lt_ge.
      constructor; [by constructor|]. constructor; [done|].
      eapply Forall_impl; [done|]. intros z Hz. simpl in *. by eapply le_trans.
Qed.

Lemma py_sorted_ordered l : numeric l -> ordered (py_sorted key l).
Proof.
  induction l as [|x l IH]; simpl; intros Hl; [constructor|].
  apply Forall_cons in Hl as [Hx Hl].
  apply insert_by_ordered; [done| |by apply IH].
  by rewrite py_sorted_perm.
Qed.

(** Stability: the entries of one key keep their order. *)
Lemma insert_by_stable k x l :
  List.filter (fun a => eq (key a) k) (insert_by key x l)
  = List.filter (fun a => eq (key a) k) (x :: l).
Proof.
  induction l as [|y l IH]; [done|]. simpl insert_by.
  destruct (lt (key y) (key x)) eqn:E; [|done].
  simpl List.filter in *. rewrite IH.
  destruct (eq (key x) k) eqn:Ex, (eq (key y) k) eqn:Ey; try done.
  assert (F : lt (key y) (key x) = false).
  { apply eq_not_lt. eapply eq_trans; [done|]. by apply eq_sym. }
  congruence.
Qed.

Lemma py_sorted_stable k l :
  List.filter (fun a => eq (key a) k) (py_sorted key l)
  = List.filter (fun a => eq (key a) k) l.
Proof.
  induction l as [|x l IH]; [done|]. simpl py_sorted.
  rewrite insert_by_stable. simpl. by rewrite IH.
Qed.

(** There is one stable sorted arrangement. *)
Lemma filter_key_head k x l :
  is_nan (key x) = false -> eq (key x) k = true ->
  List.filter (fun a => eq (key a) k) (x :: l)
  = x :: List.filter (fun a => eq (key a) k) l.
Proof. intros _ H. simpl. by rewrite H. Qed.

Lemma ordered_stable_unique l1 l2 :
  numeric l1 -> numeric l2 -> ordered l1 -> ordered l2 ->
  (forall k, List.filter (fun a => eq (key a) k) l1
             = List.filter (fun a => eq (key a) k) l2) ->
  l1 = l2.
Proof.
  revert l2. induction l1 as [|x l1 IH]; intros l2 Hn1 Hn2 H1 H2 Hf.
  - destruct l2 as [|y l2]; [done|].
    apply Forall_cons in Hn2 as [Hy _].
    assert (Eyy : eq (key y) (key y) = true) by by apply eq_cmp, cmp_refl.
    specialize (Hf (key y)). simpl in Hf. by rewrite Eyy in Hf.
  - apply Forall_cons in Hn1 as [Hx Hn1].
    apply StronglySorted_inv in H1 as [H1 Hx1].
    assert (Exx : eq (key x) (key x) = true) by by apply eq_cmp, cmp_refl.
    destruct l2 as [|y l2].
    { specialize (Hf (key x)). simpl in Hf. by rewrite Exx in Hf. }
    apply Forall_cons in Hn2 as [Hy Hn2].
    apply StronglySorted_inv in H2 as [H2 Hy2].
    assert (Eyy : eq (key y) (key y) = true) by by apply eq_cmp, cmp_refl.
    assert (Hxy : x = y).
    { destruct (eq (key y) (key x)) eqn:Eyx.
      - specialize (Hf (key x)). simpl in Hf. rewrite Exx, Eyx in Hf. congruence.
      - exfalso.
        assert (Hx2 : In x l2).
        { pose proof (Hf (key x)) as Hk. simpl in Hk. rewrite Exx, Eyx in Hk.
          assert (Hin : In x (x :: List.filter (fun a => eq (key a) (key x)) l1))
            by by left.
          rewrite Hk in Hin. by apply filter_In in Hin as [Hin _]. }
        assert (Hy1 : In y l1).
        { pose proof (Hf (key y)) as Hk. simpl in Hk. rewrite Eyy in Hk.
          assert (Exy : eq (key x) (key y) = false).
          { destruct (eq (key x) (key y)) eqn:E; [|done].
            apply eq_sym in E. congruence. }
          rewrite Exy in Hk.
          assert (Hin : In y (y :: List.filter (fun a => eq (key a) (key y)) l2))
            by by left.
          rewrite <- Hk in Hin. by apply filter_In in Hin as [Hin _]. }
        rewrite Forall_forall in Hx1, Hy2.
        apply list_elem_of_In in Hx2, Hy1.
        pose proof (Hx1 _ Hy1) as Lxy. pose proof (Hy2 _ Hx2) as Lyx.
        simpl in *. apply le_cmp in Lxy as [Lxy|Lxy].
        + apply lt_cmp in Lxy. apply le_not_gt in Lyx. congruence.
        + apply eq_cmp, eq_sym in Lxy. congruence. }
    subst y. f_equal. apply IH; try done.
    intros k. specialize (Hf k). simpl in Hf.
    destruct (eq (key x) k); congruence.
Qed.

Lemma py_sorted_unique l l' :
  numeric l -> Permutation l' l -> ordered l' ->
  (forall k, List.filter (fun a => eq (key a) k) l'
             = List.filter (fun a => eq (key a) k) l) ->
  l' = py_sorted key l.
Proof.
  intros Hn Hp Ho Hs. apply ordered_stable_unique.
  - by rewrite Hp.
  - by rewrite py_sorted_perm.
  - done.
  - by apply py_sorted_ordered.
  - intros k. by rewrite py_sorted_stable.
Qed.

End PySortedFacts.

(** * The top deficits *)

Section TopDeficits.
Import PyFloat PyFloatFacts.

Lemma deficit_not_nan (e : Z * float) : is_deficit e = true -> is_nan e.2 = false.
Proof. unfold is_deficit. intros H. by apply lt_not_nan in H as [H _]. Qed.

Lemma deficits_numeric ds :
  Forall (fun e : Z * float => is_nan e.2 = false) (List.filter is_deficit ds).
Proof.
  apply Forall_forall. intros e He%list_elem_of_In%filter_In.
  apply deficit_not_nan, He.
Qed.

(** Among the deficits are all the entries of a given negative delta,
    and no entry of another. *)
Lemma filter_deficit_delta k ds :
  List.filter (with_delta k) (List.filter is_deficit ds)
  = if lt k 0 then List.filter (with_delta k) ds else [].
Proof.
  induction ds as [|e ds IH]; simpl.
  - by destruct (lt k 0).
  - destruct (with_delta k e) eqn:Ek.
    + assert (Hd : is_deficit e = lt k 0) by by apply eq_lt_l.
      rewrite Hd. destruct (lt k 0); [|done]. simpl. by rewrite Ek, IH.
    + destruct (is_deficit e); simpl; rewrite ?Ek; apply IH.
Qed.

Lemma top_deficits_spec ds :
  is_top_deficits ds (take 3 (py_sorted snd (List.filter is_deficit ds))).
Proof.
  set (deficits := List.filter is_deficit ds).
  pose proof (py_sorted_ordered snd deficits (deficits_numeric ds)) as Hs.
  rewrite <- (take_drop 3 (py_sorted snd deficits)) in Hs.
  split; [|split; [|split]].
  - by rewrite length_take, py_sorted_length.
  - by apply StronglySorted_app_1_l in Hs.
  - intros k.
    assert (Hp : List.filter (with_delta k) (take 3 (py_sorted snd deficits))
                   `prefix_of` List.filter (with_delta k) deficits).
    { rewrite <- (py_sorted_stable snd k deficits
                    : List.filter (with_delta k) _ = List.filter (with_delta k) _).
      rewrite <- (take_drop 3 (py_sorted snd deficits)) at 2.
      rewrite List.filter_app. by apply prefix_app_r. }
    unfold deficits in Hp at 2. rewrite filter_deficit_delta in Hp.
    destruct (lt k 0); [done|].
    apply prefix_nil_inv in Hp. rewrite Hp. apply prefix_nil.
  - exists (drop 3 (py_sorted snd deficits)). split.
    + rewrite take_drop. apply py_sorted_perm.
    + intros a b Ha Hb. by apply (StronglySorted_app_1_elem_of _ _ _ _ _ Hs).
Qed.

End TopDeficits.

(** C3.  For every delta sequence, the [top_deficits] that [find_extremes]
    (both versions) returns has [min(3, number of negative deltas)]
    entries, is ascending by delta, most negative first, and keeps entries of
    equal delta in their original order; it holds the most negative deficits,
    every other deficit being no smaller. *)
Theorem top_deficits_sorted_stable (differences : list (Z * float)) :
  is_top_deficits differences (cash_on_hand.find_extremes differences).2
  /\ is_top_deficits differences (profit_and_loss.find_extremes differences).2.
Proof.
  assert (Hp : profit_and_loss.find_extremes differences
               = cash_on_hand.find_extremes differences) by reflexivity.
  rewrite Hp, find_extremes_eq. split; apply top_deficits_spec.
Qed.

(** * The Report Composer *)

Section ReportFacts.
Import PyFloat PyFloatFacts main.
Context `{Builtins}.

Lemma for_write_cons {A : Type} (x : A) xs (body : A -> writer unit) :
  for_write (x :: xs) body = body x ≫= fun _ => for_write xs body.
Proof. reflexivity. Qed.

Lemma deficit_loop label ds :
  for_write ds (fun '(day, deficit) =>
      if lt deficit (to_float (Int 0))
      then file_write (deficit_line label day deficit)
      else mret tt)
  = (deficit_lines label ds, Ok tt).
Proof.
  induction ds as [|[day d] ds IH]; [done|].
  rewrite for_write_cons, IH. unfold deficit_lines. simpl List.filter.
  change (is_deficit (day, d)) with (lt d (to_float (Int 0))).
  by destruct (lt d (to_float (Int 0))).
Qed.

Lemma top_loop label (l : list (Z * float)) :
  length l <= 3 ->
  for_write (enumerate 1 l) (fun '(i, (day, deficit)) =>
      ordinal ← lift_w (getitem ["1ST"; "2ND"; "3RD"] (i - 1));
      file_write (top_deficit_line ordinal label day deficit))
  = (top_lines label l, Ok tt).
Proof.
  destruct l as [|[] [|[] [|[] [|]]]]; simpl; intros; try reflexivity; lia.
Qed.

Lemma deficit_branch_eq label ds defs :
  deficit_branch label ds defs
  = (deficit_lines label ds ++ [nl]
       ++ top_lines label (take 3 (py_sorted sort_by_amount defs)) ++ [nl],
     Ok tt).
Proof.
  unfold deficit_branch. rewrite deficit_loop, top_loop.
  - reflexivity.
  - rewrite length_take. lia.
Qed.

Lemma consistent_Forall ds :
  consistent ds = true <-> Forall (fun e : Z * float => ge e.2 0 = true) ds.
Proof.
  unfold consistent. rewrite forallb_forall, Forall_forall.
  split; intros Hall e He.
  - apply list_elem_of_In, Hall in He. by destruct e.
  - apply list_elem_of_In, Hall in He. by destruct e.
Qed.

Lemma section_eq label (c : bool) ds inc defs :
  (if c then file_write (surplus_line label inc) else deficit_branch label ds defs)
  = ([surplus_line label inc], Ok tt) <-> c = true.
Proof.
  destruct c; split; try done.
  rewrite deficit_branch_eq. intros [= E].
  apply (f_equal length) in E.
  rewrite length_app in E. simpl in E. rewrite length_app in E. simpl in E. lia.
Qed.

Lemma ge_zero_not_deficit (e : Z * float) :
  is_nan e.2 = false -> ge e.2 0 = true <-> is_deficit e = false.
Proof.
  intros Hn. unfold is_deficit. rewrite ge_le. change (to_float (Int 0)) with 0%float.
  split.
  - apply le_not_gt.
  - by apply not_lt_ge.
Qed.

End ReportFacts.

(** C4, as amended.  In the composed report the cash section takes the
    single-line surplus branch if and only if every cash delta satisfies
    [delta >= 0]; the condition is computed from the full delta sequence,
    whatever [highest_increase] and [top_deficits] are passed along; the
    profit section behaves identically on the profit deltas.  On deltas that
    are numbers (none is not-a-number) the condition is the same as no delta
    being negative. *)
Theorem section_branches `{Builtins} (cash_differences : list (Z * float))
    (cash_increase : Z * number) (cash_deficits : list (Z * float))
    (profit_differences : list (Z * float))
    (profit_increase : Z * number) (profit_deficits : list (Z * float)) :
  let consistent_cash := main.consistent cash_differences in
  let consistent_profit := main.consistent profit_differences in
  let cash := main.cash_section consistent_cash cash_differences cash_increase
                cash_deficits in
  let profit := main.profit_section consistent_profit profit_differences
                  profit_increase profit_deficits in
  (cash = ([main.surplus_line "CASH" cash_increase], Ok tt)
     <-> Forall (fun e => PyFloat.ge e.2 0 = true) cash_differences)
  /\ (profit = ([main.surplus_line "NET PROFIT" profit_increase], Ok tt)
     <-> Forall (fun e => PyFloat.ge e.2 0 = true) profit_differences)
  /\ (consistent_cash = false ->
        cash = (deficit_lines "CASH" cash_differences ++ [nl]
                  ++ top_lines "CASH" (take 3 (py_sorted snd cash_deficits)) ++ [nl],
                Ok tt))
  /\ (consistent_profit = false ->
        profit = (deficit_lines "NET PROFIT" profit_differences ++ [nl]
                  ++ top_lines "NET PROFIT" (take 3 (py_sorted snd profit_deficits))
                  ++ [nl],
                Ok tt))
  /\ (forall differences,
        Forall (fun e => PyFloat.is_nan e.2 = false) differences ->
        Forall (fun e => PyFloat.ge e.2 0 = true) differences
        <-> Forall (fun e => is_deficit e = false) differences)
  /\ (forall highest_overhead category,
        overheads.category highest_overhead = Some category ->
        main.report highest_overhead cash_differences cash_increase cash_deficits
                    profit_differences profit_increase profit_deficits
        = (main.overhead_line (str_upper category)
             (overheads.overhead highest_overhead) :: cash.1 ++ profit.1, Ok tt)).
Proof.
  cbv zeta. split; [|split; [|split; [|split; [|split]]]].
  - unfold main.cash_section. by rewrite section_eq, consistent_Forall.
  - unfold main.profit_section. by rewrite section_eq, consistent_Forall.
  - intros ->. apply deficit_branch_eq.
  - intros ->. apply deficit_branch_eq.
  - intros ds Hn. rewrite !Forall_forall. rewrite Forall_forall in Hn.
    split; intros Hall e He.
    + apply ge_zero_not_deficit; auto.
    + apply ge_zero_not_deficit; auto.
  - intros ho category Hc. unfold main.report. rewrite Hc.
    unfold main.cash_section, main.profit_section.
    destruct (main.consistent cash_differences), (main.consistent profit_differences);
      rewrite ?deficit_branch_eq; simpl; rewrite ?app_nil_r; reflexivity.
Qed.

(** C4, as stated, fails: a delta that is not-a-number is not negative,
    yet it is not [>= 0] either.  From the cash figures [inf], [inf] the one
    delta is [inf - inf], not-a-number: no delta is negative, and the cash
    section takes the deficit branch, which writes two blank lines. *)
Lemma surplus_branch_misses_nan :
  exists differences,
    cash_on_hand.compute_differences Sample.inf_cash = Ok differences
    /\ Forall (fun e => is_deficit e = false) differences
    /\ main.consistent differences = false
    /\ let '(cash_increase, _, cash_deficits) :=
         cash_on_hand.find_extremes differences in
       @main.cash_section Sample.builtins (main.consistent differences)
          differences cash_increase cash_deficits
       = ([nl; nl], Ok tt).
Proof.
  exists (differences_of Sample.inf_cash).
  split; [apply cash_compute_differences_eq|].
  split; [repeat constructor|].
  split; reflexivity.
Qed.



(** * A run of the report *)

Section RunFacts.
Context `{Builtins}.

Lemma io_bind_eq {A B : Type} (m : io A) (f : A -> io B) w :
  (m ≫= f) w
  = match m w with
    | (Ok a, w') => f a w'
    | (Raise e, w') => (Raise e, w')
    end.
Proof. reflexivity. Qed.

Lemma extend_extend w t1 t2 : extend (extend w t1) t2 = extend w (t1 ++ t2).
Proof. unfold extend. simpl. by rewrite <- app_assoc. Qed.

Lemma csv_files_extend w t : csv_files (extend w t) = csv_files w.
Proof. reflexivity. Qed.

(** A reader opens its file, runs its loop over the rows, and returns. *)
Lemma read_run {A : Type} (body : list A -> row -> result (list A)) path w :
  (rows ← open_csv path;
   data ← lift (for_each rows body []);
   _ ← log (ReadAll path);
   mret data) w
  = match csv_files w !! path with
    | None => (Raise (FileNotFoundError path), w)
    | Some rows =>
        match for_each rows body [] with
        | Ok data => (Ok data, extend w [Opened path; ReadAll path])
        | Raise e => (Raise e, extend w [Opened path])
        end
    end.
Proof.
  rewrite io_bind_eq. unfold open_csv.
  destruct (csv_files w !! path) as [rows|]; [|done].
  rewrite io_bind_eq. unfold lift.
  destruct (for_each rows body []) as [data|e]; [|done].
  rewrite io_bind_eq. unfold log, extend. simpl. by rewrite <- app_assoc.
Qed.

Lemma call_run {A : Type} function (a : A) w :
  main.call function (Ok a) w = (Ok a, extend w [Called function]).
Proof. reflexivity. Qed.

Lemma run_eq w : main.generate_summary_report w = outcome w.
Proof.
  unfold main.generate_summary_report, outcome.
  rewrite io_bind_eq.
  unfold cash_on_hand.read_cash_on_hand. rewrite read_run.
  change "csv_reports/cash_on_hand.csv" with cash_csv.
  destruct (csv_files w !! cash_csv) as [cash_rows|]; [|done].
  destruct (for_each cash_rows cash_on_hand.read_row []) as [cash_data|e]; [|done].
  rewrite io_bind_eq, cash_compute_differences_eq, call_run.
  rewrite io_bind_eq, call_run.
  destruct (cash_on_hand.find_extremes (differences_of cash_data))
    as [[cash_increase cash_decrease] cash_deficits] eqn:Ec.
  rewrite io_bind_eq.
  unfold overheads.read_overheads. rewrite read_run.
  change "csv_reports/Overheads.csv" with overheads_csv.
  rewrite !extend_extend, csv_files_extend.
  destruct (csv_files w !! overheads_csv) as [overheads_rows|]; [|done].
  destruct (for_each overheads_rows overheads.read_row []) as [overheads_data|e];
    [|done].
  rewrite io_bind_eq, call_run, io_bind_eq.
  unfold profit_and_loss.read_profit_loss. rewrite read_run.
  change "csv_reports/Profit_and_Loss.csv" with profit_csv.
  rewrite !extend_extend, csv_files_extend.
  destruct (csv_files w !! profit_csv) as [profit_rows|]; [|done].
  destruct (for_each profit_rows profit_and_loss.read_row []) as [profit_loss_data|e];
    [|done].
  rewrite io_bind_eq, profit_compute_differences_eq, call_run.
  rewrite io_bind_eq, call_run.
  destruct (profit_and_loss.find_extremes (differences_of profit_loss_data))
    as [[profit_increase profit_decrease] profit_deficits] eqn:Ep.
  rewrite !extend_extend. unfold with_open_w.
  destruct (main.report _ _ _ _ _ _ _) as [out r]. simpl.
  by rewrite <- app_assoc.
Qed.


(** The trace a failed read leaves is silent. *)
Lemma prefix_steps_silent t : t `prefix_of` steps -> silent t.
Proof.
  intros [k Hk] e He.
  assert (Hin : e ∈ steps) by (rewrite Hk; apply elem_of_app; by left).
  unfold steps in Hin.
  repeat (apply elem_of_cons in Hin as [->|Hin]; [done|]).
  by apply elem_of_nil in Hin.
Qed.

Lemma untouched_refl w : untouched w w.
Proof.
  split; [done|]. exists []. rewrite app_nil_r.
  split; [done|]. split; [apply prefix_nil|]. apply prefix_steps_silent, prefix_nil.
Qed.

Lemma untouched_extend w n : untouched w (extend w (take n steps)).
Proof.
  split; [done|]. exists (take n steps).
  split; [done|]. split; [apply prefix_take|]. apply prefix_steps_silent, prefix_take.
Qed.

Lemma run_cases w :
  let '(r, w') := main.generate_summary_report w in
  (exists e, r = Raise e /\ untouched w w')
  \/ exists written,
       trace w' = trace w ++ steps ++ Created summary_txt :: map (Wrote summary_txt) written
       /\ text_files w' = <[summary_txt := String.concat "" written]> (text_files w).
Proof.
  rewrite run_eq. unfold outcome.
  repeat match goal with
  | |- context [csv_files w !! ?p] => destruct (csv_files w !! p)
  | |- context [for_each ?rows ?b []] => destruct (for_each rows b [])
  end;
  try (left; eexists; split; [reflexivity|]; (apply untouched_refl || apply untouched_extend)).
  destruct (cash_on_hand.find_extremes _) as [[? ?] ?].
  destruct (profit_and_loss.find_extremes _) as [[? ?] ?].
  destruct (main.report _ _ _ _ _ _ _) as [written r]. right. exists written. done.
Qed.

End RunFacts.

(** * Reading the inputs *)

Section ReadFacts.
Context `{Builtins}.



Lemma getkey_Some (r : row) column field :
  r !! column = Some field -> getkey r column = Ok field.
Proof. unfold getkey. by intros ->. Qed.













End ReadFacts.

(** * The order of a run *)

Section OrderFacts.

Lemma not_called_after written i function :
  (Created summary_txt :: map (Wrote summary_txt) written) !! i
  <> Some (Called function).
Proof.
  destruct i as [|i]; simpl; [done|].
  rewrite list_lookup_fmap. by destruct (written !! i).
Qed.

Lemma created_after written i path :
  (Created summary_txt :: map (Wrote summary_txt) written) !! i = Some (Created path) ->
  i = 0.
Proof.
  destruct i as [|i]; simpl; [done|].
  rewrite list_lookup_fmap. by destruct (written !! i).
Qed.

Lemma prefix_own_read_first written t :
  t `prefix_of` steps ++ Created summary_txt :: map (Wrote summary_txt) written ->
  own_read_first t.
Proof.
  intros Hp i function Hi.
  pose proof (prefix_lookup_Some _ _ _ _ Hi Hp) as Hfull.
  assert (Hlen : i < length t) by by eapply lookup_lt_Some.
  assert (Hj : forall j e, j < i -> steps !! j = Some e -> t !! j = Some e).
  { intros j e Hji He. rewrite (prefix_lookup_lt t _ j ltac:(lia) Hp).
    by apply lookup_app_l_Some. }
  destruct i as [|[|[|[|[|[|[|[|[|[|[|i]]]]]]]]]]];
    try discriminate Hfull.
  - injection Hfull as <-. exists 1. split; [lia|]. by apply Hj; [lia|].
  - injection Hfull as <-. exists 1. split; [lia|]. by apply Hj; [lia|].
  - injection Hfull as <-. exists 5. split; [lia|]. by apply Hj; [lia|].
  - injection Hfull as <-. exists 8. split; [lia|]. by apply Hj; [lia|].
  - injection Hfull as <-. exists 8. split; [lia|]. by apply Hj; [lia|].
  - by apply not_called_after in Hfull.
Qed.

Lemma prefix_output_last written t :
  t `prefix_of` steps ++ Created summary_txt :: map (Wrote summary_txt) written ->
  output_last t.
Proof.
  intros Hp j path Hj.
  pose proof (prefix_lookup_Some _ _ _ _ Hj Hp) as Hfull.
  assert (Hlen : j < length t) by by eapply lookup_lt_Some.
  destruct j as [|[|[|[|[|[|[|[|[|[|[|j]]]]]]]]]]];
    try discriminate Hfull.
  apply created_after in Hfull. subst j.
  destruct Hp as [k Hk].
  apply (f_equal (take 11)) in Hk.
  rewrite take_app_le in Hk by (simpl; lia).
  rewrite (take_app_le t k) in Hk by lia.
  by rewrite <- Hk.
Qed.

End OrderFacts.

(** C9, as amended.  In every run of [generate_summary_report] the steps
    are taken in the order of [steps]: each input source is read to
    completion before the analysis of that source begins, the sources being
    taken in turn (cash read and analysed, then overheads, then profit), and
    all three are read and analysed before the output file is created. *)
Theorem run_order `{Builtins} (w : world) :
  exists t,
    trace (main.generate_summary_report w).2 = trace w ++ t
    /\ (t `prefix_of` steps
        \/ exists written,
             t = steps ++ Created summary_txt :: map (Wrote summary_txt) written)
    /\ own_read_first t
    /\ output_last t.
Proof.
  pose proof (run_cases w) as Hrun.
  destruct (main.generate_summary_report w) as [r w'].
  destruct Hrun as [(e & -> & _ & t & Ht & Hp & _)|(written & Ht & _)].
  - exists t. split; [done|]. split; [by left|].
    split; [apply (prefix_own_read_first [])|apply (prefix_output_last [])];
      by apply prefix_app_r.
  - exists (steps ++ Created summary_txt :: map (Wrote summary_txt) written).
    split; [done|]. split; [right; by exists written|].
    split; [by apply (prefix_own_read_first written)
           |by apply (prefix_output_last written)].
Qed.

(** C9, as stated, fails: the cash deltas and extremes are computed before
    the overheads and the profit files are read. *)
Lemma analysis_precedes_reads :
  trace (@main.generate_summary_report Sample.builtins Sample.files).2 !! 2
  = Some (Called "compute_cash_differences")
  /\ trace (@main.generate_summary_report Sample.builtins Sample.files).2 !! 5
     = Some (ReadAll overheads_csv)
  /\ trace (@main.generate_summary_report Sample.builtins Sample.files).2 !! 8
     = Some (ReadAll profit_csv)
  /\ ~ reads_before_analysis
         (trace (@main.generate_summary_report Sample.builtins Sample.files).2).
Proof.
  assert (H2 : trace (@main.generate_summary_report Sample.builtins Sample.files).2 !! 2
               = Some (Called "compute_cash_differences")) by (vm_compute; reflexivity).
  assert (H5 : trace (@main.generate_summary_report Sample.builtins Sample.files).2 !! 5
               = Some (ReadAll overheads_csv)) by (vm_compute; reflexivity).
  assert (H8 : trace (@main.generate_summary_report Sample.builtins Sample.files).2 !! 8
               = Some (ReadAll profit_csv)) by (vm_compute; reflexivity).
  repeat split; try done.
  intros Hclaim. specialize (Hclaim 2 5 _ _ H2 H5). lia.
Qed.

(** * Further properties of the code

    What the code shows beyond the sentences of its specification: the
    highest decrease, how the results of [find_extremes] and the report fit
    together, the readers, and the ways a run can end. *)

Section RunningMinFacts.
Import PyFloat PyFloatFacts.
Context {A : Type} (key : A -> float).

Lemma ceiling_upper xs best x :
  is_running_min key xs best -> x ∈ xs -> lt (key x) (floor_of key best) = false.
Proof.
  destruct best as [a|]; simpl.
  - intros (i & _ & _ & H & _). apply H.
  - intros H. apply H.
Qed.

Lemma ceiling_nonpos xs best :
  is_running_min key xs best -> le (floor_of key best) 0 = true.
Proof.
  destruct best as [a|]; simpl.
  - intros (i & _ & H & _). by apply lt_le.
  - intros _. reflexivity.
Qed.

Lemma running_min_snoc xs best x :
  is_running_min key xs best ->
  is_running_min key (xs ++ [x]) (least_step key best x).
Proof.
  intros Hb. unfold least_step.
  destruct (lt (key x) (floor_of key best)) eqn:Hx.
  - exists (length xs). split; [|split; [|split]].
    + by rewrite lookup_app_r, Nat.sub_diag by lia.
    + eapply lt_le_trans; [done|by eapply ceiling_nonpos].
    + intros y [Hy| ->%list_elem_of_singleton]%elem_of_app.
      * destruct (lt (key y) (key x)) eqn:E; [|done].
        pose proof (ceiling_upper _ _ _ Hb Hy) as F.
        by rewrite (lt_trans _ _ _ E Hx) in F.
      * apply lt_irrefl.
    + intros j y Hj Hy. rewrite lookup_app_l in Hy by done.
      destruct (le (key y) (key x)) eqn:E; [|done].
      pose proof (ceiling_upper _ _ _ Hb (list_elem_of_lookup_2 _ _ _ Hy)) as F.
      by rewrite (le_lt_trans _ _ _ E Hx) in F.
  - destruct best as [a|]; simpl in *.
    + destruct Hb as (i & Hi & Ha & Hall & Hfirst). exists i.
      split; [|split; [|split]].
      * by apply lookup_app_l_Some.
      * done.
      * intros y [Hy| ->%list_elem_of_singleton]%elem_of_app; auto.
      * intros j y Hj Hy. apply (Hfirst j y Hj).
        rewrite lookup_app_l in Hy; [done|].
        apply lookup_lt_Some in Hi. lia.
    + intros y [Hy| ->%list_elem_of_singleton]%elem_of_app; auto.
Qed.

Lemma fold_least_step xs ys best :
  is_running_min key xs best ->
  is_running_min key (xs ++ ys) (fold_left (least_step key) ys best).
Proof.
  revert xs best. induction ys as [|y ys IH]; intros xs best Hb; simpl.
  - by rewrite app_nil_r.
  - replace (xs ++ y :: ys) with ((xs ++ [y]) ++ ys) by by rewrite <- app_assoc.
    apply IH. by apply running_min_snoc.
Qed.

Lemma running_min_spec xs : is_running_min key xs (running_min key xs).
Proof.
  apply (fold_least_step [] xs None). intros x Hx. by apply elem_of_nil in Hx.
Qed.

End RunningMinFacts.

Section DecreaseFacts.
Import PyFloat PyFloatFacts.

Lemma scan_unguarded_lowest ds hi b defs :
  (fold_left scan_unguarded ds (hi, as_extreme b, defs)).1.2
  = as_extreme (fold_left (least_step snd) ds b).
Proof.
  revert hi b defs. induction ds as [|[day d] ds IH]; intros hi b defs; [done|].
  rewrite !fold_left_step, scan_unguarded_eq, to_float_as_extreme.
  unfold least_step at 2. simpl snd.
  destruct (lt d (floor_of snd b)).
  - apply (IH _ (Some (day, d))).
  - apply IH.
Qed.

Lemma find_extremes_lowest ds :
  (cash_on_hand.find_extremes ds).1.2 = as_extreme (running_min snd ds).
Proof.
  rewrite find_extremes_eq. cbn [fst snd].
  rewrite <- fold_scan_unguarded by apply invariant_init.
  apply (scan_unguarded_lowest ds (0%Z, Int 0) None []).
Qed.

Lemma highest_decrease_spec ds :
  is_highest_decrease ds (cash_on_hand.find_extremes ds).1.2.
Proof.
  rewrite find_extremes_lowest.
  pose proof (running_min_spec snd ds) as H.
  destruct (running_min snd ds) as [[day d]|]; simpl in *.
  - right. destruct H as (i & ?). exists i, day, d. tauto.
  - left. done.
Qed.

End DecreaseFacts.

(** X1.  The [highest_decrease] that [find_extremes] returns (both versions) is
    the sentinel [(0, 0)] exactly when no delta is below zero; otherwise it
    is the first entry of least delta: no delta is below it and no earlier
    delta is as small.  The [elif] that guards its update loses nothing. *)
Theorem highest_decrease_first_least (differences : list (Z * float)) :
  is_highest_decrease differences (cash_on_hand.find_extremes differences).1.2
  /\ is_highest_decrease differences (profit_and_loss.find_extremes differences).1.2.
Proof. split; apply highest_decrease_spec. Qed.

Section HeadFacts.
Import PyFloat PyFloatFacts.




End HeadFacts.


Section ResortFacts.
Import PyFloat PyFloatFacts.

Lemma py_sorted_ordered_id {A : Type} (key : A -> float) l :
  StronglySorted (fun a b => le (key a) (key b) = true) l -> py_sorted key l = l.
Proof.
  induction l as [|x l IH]; intros Hs; [done|].
  apply StronglySorted_inv in Hs as [Hs Hx]. simpl. rewrite IH by done.
  destruct l as [|y l]; [done|]. simpl.
  apply Forall_cons in Hx as [Hxy _]. by rewrite (le_not_gt _ _ Hxy).
Qed.

Lemma resort_top ds :
  take 3 (py_sorted main.sort_by_amount (cash_on_hand.find_extremes ds).2)
  = (cash_on_hand.find_extremes ds).2.
Proof.
  pose proof (top_deficits_spec ds) as (Hlen & Hsorted & _).
  rewrite find_extremes_eq. cbn [snd].
  rewrite (py_sorted_ordered_id main.sort_by_amount) by done.
  apply take_ge. lia.
Qed.

End ResortFacts.

(** X3.  Sorting the [top_deficits] of [find_extremes] again by amount and
    cutting them to three, as [generate_summary_report] does before it
    ranks them, changes nothing: the ranked lines of a deficit branch are the
    [top_deficits], in their order. *)
Theorem ranked_lines_are_top_deficits `{Builtins} (label : string)
    (differences : list (Z * float)) :
  let top_deficits := (cash_on_hand.find_extremes differences).2 in
  take 3 (py_sorted main.sort_by_amount top_deficits) = top_deficits
  /\ take 3 (py_sorted main.sort_by_amount
               (profit_and_loss.find_extremes differences).2)
     = (profit_and_loss.find_extremes differences).2
  /\ main.deficit_branch label differences top_deficits
     = (deficit_lines label differences ++ [nl]
          ++ top_lines label top_deficits ++ [nl], Ok tt).
Proof.
  cbv zeta. split; [apply resort_top|]. split; [apply resort_top|].
  rewrite deficit_branch_eq. by rewrite resort_top.
Qed.

Section ConsistentFacts.
Import PyFloat PyFloatFacts.

Lemma top_deficits_nil ds :
  (cash_on_hand.find_extremes ds).2 = [] <-> List.filter is_deficit ds = [].
Proof.
  rewrite find_extremes_eq. cbn [snd]. split.
  - intros E. apply (f_equal length) in E.
    rewrite length_take, py_sorted_length in E. simpl in E.
    destruct (List.filter is_deficit ds); [done|]. simpl in E. lia.
  - by intros ->.
Qed.

Lemma filter_nil_Forall {A : Type} (p : A -> bool) l :
  List.filter p l = [] <-> Forall (fun x => p x = false) l.
Proof.
  induction l as [|x l IH]; simpl.
  - split; [constructor|done].
  - destruct (p x) eqn:E.
    + split; [done|]. intros [Hx _]%Forall_cons. congruence.
    + rewrite IH. split; [by constructor|by intros [_ ?]%Forall_cons].
Qed.

Lemma ge_zero_iff (e : Z * float) :
  ge e.2 0 = true <-> is_deficit e = false /\ is_nan e.2 = false.
Proof.
  split.
  - intros Hge. assert (Hn : is_nan e.2 = false).
    { rewrite ge_le in Hge. by apply le_not_nan in Hge as [_ ?]. }
    split; [|done]. by apply ge_zero_not_deficit.
  - intros [Hd Hn]. by apply ge_zero_not_deficit.
Qed.

End ConsistentFacts.

(** X4.  The surplus test of [generate_summary_report] against the result of
    [find_extremes]: every delta is [>= 0] exactly when [top_deficits] is
    empty and no delta is not-a-number.  So the surplus line is written only
    when [find_extremes] found no deficit, and a deficit branch with no
    deficit to list is the mark of a delta that is not-a-number. *)
Theorem surplus_test_and_top_deficits (differences : list (Z * float)) :
  (main.consistent differences = true
   <-> (cash_on_hand.find_extremes differences).2 = []
       /\ Forall (fun e => PyFloat.is_nan e.2 = false) differences)
  /\ (main.consistent differences = true
      <-> (profit_and_loss.find_extremes differences).2 = []
          /\ Forall (fun e => PyFloat.is_nan e.2 = false) differences).
Proof.
  assert (Hcash : main.consistent differences = true
                  <-> (cash_on_hand.find_extremes differences).2 = []
                      /\ Forall (fun e => PyFloat.is_nan e.2 = false) differences).
  { rewrite consistent_Forall, top_deficits_nil, filter_nil_Forall, <- Forall_and.
    apply Forall_iff. intros e. apply ge_zero_iff. }
  split; exact Hcash.
Qed.

Section IgnoredFacts.
Import PyFloat PyFloatFacts.

Lemma scan_no_change st (e : Z * float) :
  extremes_invariant st -> is_change e = false -> cash_on_hand.scan st e = st.
Proof.
  destruct st as [[hi lo] defs], e as [day d]. unfold extremes_invariant, is_change.
  cbn [fst snd]. intros [Hhi Hlo] [Hpos Hneg]%orb_false_elim.
  rewrite scan_eq. rewrite ge_le, gt_lt in *.
  assert (Hgt : lt (to_float hi.2) d = false).
  { destruct (lt (to_float hi.2) d) eqn:E; [|done].
    by rewrite (le_lt_trans _ _ _ Hhi E) in Hpos. }
  assert (Hlt : lt d (to_float lo.2) = false).
  { destruct (lt d (to_float lo.2)) eqn:E; [|done].
    by rewrite (lt_le_trans _ _ _ E Hlo) in Hneg. }
  rewrite Hgt, Hlt. unfold is_deficit. cbn [snd].
  change (to_float (Int 0)) with 0%float. by rewrite Hneg.
Qed.

Lemma fold_scan_changes ds st :
  extremes_invariant st ->
  fold_left cash_on_hand.scan (List.filter is_change ds) st
  = fold_left cash_on_hand.scan ds st.
Proof.
  revert st. induction ds as [|e ds IH]; intros st Hinv; [done|].
  simpl List.filter. destruct (is_change e) eqn:E.
  - rewrite !fold_left_step. by apply IH, invariant_scan.
  - rewrite fold_left_step, scan_no_change by done. by apply IH.
Qed.

Lemma best_step_not_positive {A : Type} (key : A -> float) b x :
  le 0 (floor_of key b) = true -> gt (key x) 0 = false -> best_step key b x = b.
Proof.
  intros Hb Hx. unfold best_step. rewrite gt_lt in *.
  destruct (lt (floor_of key b) (key x)) eqn:E; [|done].
  by rewrite (le_lt_trans _ _ _ Hb E) in Hx.
Qed.

Lemma best_step_floor {A : Type} (key : A -> float) b x :
  le 0 (floor_of key b) = true -> le 0 (floor_of key (best_step key b x)) = true.
Proof.
  intros Hb. unfold best_step. rewrite gt_lt.
  destruct (lt (floor_of key b) (key x)) eqn:E; [|done].
  simpl. apply lt_le. by eapply le_lt_trans.
Qed.

Lemma fold_best_step_positive {A : Type} (key : A -> float) xs b :
  le 0 (floor_of key b) = true ->
  fold_left (best_step key) (List.filter (fun x => gt (key x) 0) xs) b
  = fold_left (best_step key) xs b.
Proof.
  revert b. induction xs as [|x xs IH]; intros b Hb; [done|].
  simpl List.filter. destruct (gt (key x) 0) eqn:E.
  - rewrite !fold_left_step. by apply IH, best_step_floor.
  - rewrite fold_left_step, best_step_not_positive by done. by apply IH.
Qed.

End IgnoredFacts.

(** X5.  [find_extremes] (both versions) sees only the deltas above and below
    zero: a delta of zero and a delta that is not-a-number move no extreme
    and are no deficit, so leaving them out of the sequence leaves the result
    as it is. *)
Theorem find_extremes_skips_zero_and_nan (differences : list (Z * float)) :
  cash_on_hand.find_extremes (List.filter is_change differences)
    = cash_on_hand.find_extremes differences
  /\ profit_and_loss.find_extremes (List.filter is_change differences)
     = profit_and_loss.find_extremes differences.
Proof.
  assert (Hcash : cash_on_hand.find_extremes (List.filter is_change differences)
                  = cash_on_hand.find_extremes differences).
  { unfold cash_on_hand.find_extremes.
    by rewrite fold_scan_changes by apply invariant_init. }
  split; exact Hcash.
Qed.

(** X6.  [find_highest_overhead] sees only the records with an amount above
    zero: a record whose amount is zero, negative or not-a-number never wins,
    so leaving such records out leaves the result as it is. *)
Theorem find_highest_overhead_skips_non_positive
    (records : list (overheads.dict float)) :
  overheads.find_highest_overhead (List.filter is_positive records)
  = overheads.find_highest_overhead records.
Proof.
  rewrite !find_highest_overhead_eq. unfold running_max. f_equal.
  by apply (fold_best_step_positive overheads.overhead records None).
Qed.

Section ReaderFacts.
Context `{Builtins}.

Lemma getkey_int_of (r : row) column :
  (exists z, getkey r column ≫= int_of = Ok z /\ coerces py_int r column z)
  \/ (exists e, getkey r column ≫= int_of = Raise e /\ faults py_int r column e).
Proof.
  unfold getkey, coerces, faults.
  destruct (r !! column) as [[s|]|] eqn:E; simpl.
  - destruct (py_int s) as [z|] eqn:Ez.
    + left. exists z. split; [done|]. by exists s.
    + right. exists ValueError. split; [done|]. right. right. by exists s.
  - right. exists TypeError. split; [done|]. right. by left.
  - right. exists (KeyError column). split; [done|]. by left.
Qed.

Lemma getkey_float_of (r : row) column :
  (exists x, getkey r column ≫= float_of = Ok x /\ coerces py_float r column x)
  \/ (exists e, getkey r column ≫= float_of = Raise e /\ faults py_float r column e).
Proof.
  unfold getkey, coerces, faults.
  destruct (r !! column) as [[s|]|] eqn:E; simpl.
  - destruct (py_float s) as [x|] eqn:Ex.
    + left. exists x. split; [done|]. by exists s.
    + right. exists ValueError. split; [done|]. right. right. by exists s.
  - right. exists TypeError. split; [done|]. right. by left.
  - right. exists (KeyError column). split; [done|]. by left.
Qed.

(** A field coerces to one value at most, and does not both coerce and
    fault. *)
Lemma coerces_inj {V : Type} (coerce : string -> option V) (r : row) column v v' :
  coerces coerce r column v -> coerces coerce r column v' -> v = v'.
Proof. intros (s & Hs & Hv) (s' & Hs' & Hv'). congruence. Qed.

Lemma coerces_faults {V : Type} (coerce : string -> option V) (r : row) column v e :
  coerces coerce r column v -> faults coerce r column e -> False.
Proof.
  intros (s & Hs & Hv) [[Hn _]|[[Hn _]|(s' & Hs' & Hv' & _)]]; congruence.
Qed.

Lemma faults_inj {V : Type} (coerce : string -> option V) (r : row) column e e' :
  faults coerce r column e -> faults coerce r column e' -> e = e'.
Proof.
  intros [[Hn ->]|[[Hn ->]|(s & Hs & Hv & ->)]]
         [[Hn' ->]|[[Hn' ->]|(s' & Hs' & Hv' & ->)]]; congruence.
Qed.

(** The body of the loop of the cash and the profit readers. *)
Lemma read_day_value_cases value_column data (r : row) :
  (exists entry, read_day_value value_column data r = Ok (data ++ [entry])
                 /\ day_value_of value_column r entry)
  \/ (exists e, read_day_value value_column data r = Raise e
                /\ day_value_fault value_column r e).
Proof.
  unfold read_day_value, day_value_of, day_value_fault.
  pose proof (getkey_int_of r "Day") as Hday.
  pose proof (getkey_float_of r value_column) as Hval.
  unfold mbind, result_bind in *.
  destruct (getkey r "Day") as [fd|ed].
  2:{ destruct Hday as [(z & [=] & _)|(e & [= <-] & He)]. right. eauto. }
  destruct (int_of fd) as [z|ez].
  2:{ destruct Hday as [(z & [=] & _)|(e & [= <-] & He)]. right. eauto. }
  destruct Hday as [(z' & [= <-] & Hz)|(e & [=] & _)].
  destruct (getkey r value_column) as [fv|ev].
  2:{ destruct Hval as [(x & [=] & _)|(e & [= <-] & He)]. right. eauto 6. }
  destruct (float_of fv) as [x|ex].
  2:{ destruct Hval as [(x & [=] & _)|(e & [= <-] & He)]. right. eauto 6. }
  destruct Hval as [(x' & [= <-] & Hx)|(e & [=] & _)].
  left. exists (z, x). by split.
Qed.

Lemma read_overhead_cases data (r : row) :
  (exists record, overheads.read_row data r = Ok (data ++ [record])
                  /\ overhead_of r record)
  \/ (exists e, overheads.read_row data r = Raise e /\ overhead_fault r e).
Proof.
  unfold overheads.read_row, overhead_of, overhead_fault.
  pose proof (getkey_float_of r "Overheads") as Hval.
  unfold mbind, result_bind in *.
  destruct (r !! "Category") as [category|] eqn:Ec.
  2:{ right. exists (KeyError "Category"). split; [|by left].
      unfold getkey at 1. by rewrite Ec. }
  rewrite (getkey_Some _ _ _ Ec).
  destruct (getkey r "Overheads") as [fv|ev].
  2:{ destruct Hval as [(x & [=] & _)|(e & [= <-] & He)]. right. eauto 6. }
  destruct (float_of fv) as [x|ex].
  2:{ destruct Hval as [(x & [=] & _)|(e & [= <-] & He)]. right. eauto 6. }
  destruct Hval as [(x' & [= <-] & Hx)|(e & [=] & _)].
  left. exists (overheads.Dict category x). by split.
Qed.

(** A row is read in one way. *)
Lemma day_value_of_fault value_column (r : row) entry e :
  day_value_of value_column r entry -> day_value_fault value_column r e -> False.
Proof.
  intros [Hd Hv] [Hf|[_ Hf]].
  - exact (coerces_faults _ _ _ _ _ Hd Hf).
  - exact (coerces_faults _ _ _ _ _ Hv Hf).
Qed.

Lemma overhead_of_fault (r : row) record e :
  overhead_of r record -> overhead_fault r e -> False.
Proof.
  intros [Hc Hv] [[Hn _]|[_ Hf]]; [congruence|].
  exact (coerces_faults _ _ _ _ _ Hv Hf).
Qed.

Lemma day_value_of_inj value_column (r : row) entry entry' :
  day_value_of value_column r entry -> day_value_of value_column r entry' ->
  entry = entry'.
Proof.
  destruct entry, entry'. intros [Hd Hv] [Hd' Hv']. simpl in *. f_equal.
  - exact (coerces_inj _ _ _ _ _ Hd Hd').
  - exact (coerces_inj _ _ _ _ _ Hv Hv').
Qed.

Lemma overhead_of_inj (r : row) record record' :
  overhead_of r record -> overhead_of r record' -> record = record'.
Proof.
  destruct record, record'. intros [Hc Hv] [Hc' Hv']. simpl in *.
  f_equal; [congruence|]. exact (coerces_inj _ _ _ _ _ Hv Hv').
Qed.

Lemma day_value_fault_inj value_column (r : row) e e' :
  day_value_fault value_column r e -> day_value_fault value_column r e' -> e = e'.
Proof.
  intros [Hf|[[d Hd] Hf]] [Hf'|[[d' Hd'] Hf']].
  - exact (faults_inj _ _ _ _ _ Hf Hf').
  - destruct (coerces_faults _ _ _ _ _ Hd' Hf).
  - destruct (coerces_faults _ _ _ _ _ Hd Hf').
  - exact (faults_inj _ _ _ _ _ Hf Hf').
Qed.

Lemma overhead_fault_inj (r : row) e e' :
  overhead_fault r e -> overhead_fault r e' -> e = e'.
Proof.
  intros [[Hn ->]|[[c Hc] Hf]] [[Hn' ->]|[[c' Hc'] Hf']]; try congruence.
  exact (faults_inj _ _ _ _ _ Hf Hf').
Qed.

End ReaderFacts.

(** The loop of a reader: a body that reads a row as one record, or
    raises. *)
Section ReaderLoop.
Context {V : Type} (body : list V -> row -> result (list V)).
Context (of_row : row -> V -> Prop) (fault : row -> exn -> Prop).
Hypothesis body_cases : forall data r,
  (exists v, body data r = Ok (data ++ [v]) /\ of_row r v)
  \/ (exists e, body data r = Raise e /\ fault r e).
Hypothesis of_row_inj : forall r v v', of_row r v -> of_row r v' -> v = v'.
Hypothesis of_row_fault : forall r v e, of_row r v -> fault r e -> False.
Hypothesis fault_inj : forall r e e', fault r e -> fault r e' -> e = e'.

Lemma body_Ok data r v : of_row r v -> body data r = Ok (data ++ [v]).
Proof.
  intros Hv. destruct (body_cases data r) as [(v' & -> & Hv')|(e & _ & He)].
  - by rewrite (of_row_inj _ _ _ Hv Hv').
  - destruct (of_row_fault _ _ _ Hv He).
Qed.

Lemma body_Raise data r e : fault r e -> body data r = Raise e.
Proof.
  intros He. destruct (body_cases data r) as [(v & _ & Hv)|(e' & -> & He')].
  - destruct (of_row_fault _ _ _ Hv He).
  - by rewrite (fault_inj _ _ _ He He').
Qed.

Lemma loop_Ok rows data acc :
  Forall2 of_row rows data -> for_each rows body acc = Ok (acc ++ data).
Proof.
  intros Hall. revert acc.
  induction Hall as [|r v rows data Hv Hall IH]; intros acc.
  - by rewrite app_nil_r.
  - rewrite for_each_cons, (body_Ok _ _ _ Hv). simpl.
    rewrite IH. by rewrite <- app_assoc.
Qed.

Lemma loop_Raise good bad rest data e acc :
  Forall2 of_row good data -> fault bad e ->
  for_each (good ++ bad :: rest) body acc = Raise e.
Proof.
  intros Hall He. revert acc.
  induction Hall as [|r v rows data Hv Hall IH]; intros acc.
  - simpl app. by rewrite for_each_cons, (body_Raise _ _ _ He).
  - simpl app. rewrite for_each_cons, (body_Ok _ _ _ Hv). simpl. apply IH.
Qed.

Lemma loop_cases rows acc :
  (exists data, for_each rows body acc = Ok (acc ++ data) /\ Forall2 of_row rows data)
  \/ (exists good bad rest data e,
        for_each rows body acc = Raise e
        /\ rows = good ++ bad :: rest /\ Forall2 of_row good data /\ fault bad e).
Proof.
  revert acc. induction rows as [|r rows IH]; intros acc.
  - left. exists []. rewrite app_nil_r. by split.
  - rewrite for_each_cons.
    destruct (body_cases acc r) as [(v & -> & Hv)|(e & -> & He)].
    + simpl. destruct (IH (acc ++ [v])) as [(data & -> & Hd)
                                         |(good & bad & rest & data & e & -> & -> & Hd & He)].
      * left. exists (v :: data). rewrite <- app_assoc. split; [done|by constructor].
      * right. exists (r :: good), bad, rest, (v :: data), e.
        split; [done|]. split; [done|]. split; [by constructor|done].
    + right. exists [], r, rows, [], e. by repeat split.
Qed.

(** The reader around the loop. *)
Lemma reader_returns path w data w' :
  (rows ← open_csv path;
   data ← lift (for_each rows body []);
   _ ← log (ReadAll path);
   mret data) w = (Ok data, w')
  <-> returns_rows of_row path w data w'.
Proof.
  rewrite read_run. unfold returns_rows. split.
  - destruct (csv_files w !! path) as [rows|]; [|done].
    destruct (loop_cases rows []) as [(d & -> & Hd)
                                     |(good & bad & rest & d & e & -> & _)]; [|done].
    intros [= <- <-]. by exists rows.
  - intros (rows & -> & Hd & ->). by rewrite (loop_Ok _ _ [] Hd).
Qed.

Lemma reader_raises path w e w' :
  raises_at_row of_row fault path w e w' ->
  (rows ← open_csv path;
   data ← lift (for_each rows body []);
   _ ← log (ReadAll path);
   mret data) w = (Raise e, w').
Proof.
  rewrite read_run. unfold raises_at_row.
  intros [(-> & -> & ->)|(good & bad & rest & d & -> & Hd & He & ->)]; [done|].
  by rewrite (loop_Raise _ _ _ _ _ [] Hd He).
Qed.

End ReaderLoop.

(** X7.  Each reader returns one record per row of its file, in file order:
    [read_cash_on_hand] and [read_profit_loss] the pair of [int] of the [Day]
    field and [float] of the value field, [read_overheads] the [Category]
    field as it is with [float] of the [Overheads] field.  The file is opened
    and read to the end, and nothing else happens. *)
Theorem readers_return `{Builtins} (path : string) (w w' : world) :
  (forall cash_data,
     cash_on_hand.read_cash_on_hand path w = (Ok cash_data, w')
     <-> returns_rows (day_value_of "Cash On Hand") path w cash_data w')
  /\ (forall profit_loss_data,
        profit_and_loss.read_profit_loss path w = (Ok profit_loss_data, w')
        <-> returns_rows (day_value_of "Net Profit") path w profit_loss_data w')
  /\ (forall overheads_data,
        overheads.read_overheads path w = (Ok overheads_data, w')
        <-> returns_rows overhead_of path w overheads_data w').
Proof.
  split; [|split]; intros data.
  - apply (reader_returns _ _ _ (read_day_value_cases "Cash On Hand")
             (day_value_of_inj "Cash On Hand") (day_value_of_fault "Cash On Hand")).
  - apply (reader_returns _ _ _ (read_day_value_cases "Net Profit")
             (day_value_of_inj "Net Profit") (day_value_of_fault "Net Profit")).
  - apply (reader_returns _ _ _ read_overhead_cases overhead_of_inj overhead_of_fault).
Qed.

(** X8.  When no file exists at the path, a reader raises
    [FileNotFoundError] with nothing done.  When the file is there and some
    row of it cannot be read, the reader raises at the first such row, after
    the file was opened: [KeyError] for a column the row lacks, [TypeError]
    for a field the line is too short to have, [ValueError] for a field that
    is no number, the [Day] (or [Category]) column being looked at before the
    value column. *)
Theorem readers_raise `{Builtins} (path : string) (w w' : world) (e : exn) :
  (raises_at_row (day_value_of "Cash On Hand") (day_value_fault "Cash On Hand")
     path w e w' ->
   cash_on_hand.read_cash_on_hand path w = (Raise e, w'))
  /\ (raises_at_row (day_value_of "Net Profit") (day_value_fault "Net Profit")
        path w e w' ->
      profit_and_loss.read_profit_loss path w = (Raise e, w'))
  /\ (raises_at_row overhead_of overhead_fault path w e w' ->
      overheads.read_overheads path w = (Raise e, w')).
Proof.
  split; [|split].
  - apply (reader_raises _ _ _ (read_day_value_cases "Cash On Hand")
             (day_value_of_inj "Cash On Hand") (day_value_of_fault "Cash On Hand")
             (day_value_fault_inj "Cash On Hand")).
  - apply (reader_raises _ _ _ (read_day_value_cases "Net Profit")
             (day_value_of_inj "Net Profit") (day_value_of_fault "Net Profit")
             (day_value_fault_inj "Net Profit")).
  - apply (reader_raises _ _ _ read_overhead_cases overhead_of_inj overhead_of_fault
             overhead_fault_inj).
Qed.

Lemma readers_raise_witness :
  @cash_on_hand.read_cash_on_hand Sample.builtins cash_csv Sample.bad_files
  = (Raise ValueError, extend Sample.bad_files [Opened cash_csv]).
Proof.
  apply (proj1 (@readers_raise Sample.builtins cash_csv Sample.bad_files
                  (extend Sample.bad_files [Opened cash_csv]) ValueError)).
  right.
  exists [Sample.row_of [("Day", "1"); ("Cash On Hand", "100")]],
    (Sample.row_of [("Day", "2"); ("Cash On Hand", "n/a")]), [], [(1%Z, 100%float)].
  split; [reflexivity|]. split; [|split; [|reflexivity]].
  - repeat constructor; eexists; split; reflexivity.
  - right. split.
    + exists 2%Z. eexists. split; reflexivity.
    + right. right. eexists. split; [reflexivity|]. split; reflexivity.
Defined.

Section ComposedFacts.
Context `{Builtins}.

Lemma cash_loop_Ok rows data :
  Forall2 (day_value_of "Cash On Hand") rows data ->
  for_each rows cash_on_hand.read_row [] = Ok data.
Proof.
  exact (loop_Ok _ _ _ (read_day_value_cases "Cash On Hand")
           (day_value_of_inj "Cash On Hand") (day_value_of_fault "Cash On Hand")
           rows data []).
Qed.

Lemma profit_loop_Ok rows data :
  Forall2 (day_value_of "Net Profit") rows data ->
  for_each rows profit_and_loss.read_row [] = Ok data.
Proof.
  exact (loop_Ok _ _ _ (read_day_value_cases "Net Profit")
           (day_value_of_inj "Net Profit") (day_value_of_fault "Net Profit")
           rows data []).
Qed.

Lemma overheads_loop_Ok rows data :
  Forall2 overhead_of rows data -> for_each rows overheads.read_row [] = Ok data.
Proof.
  exact (loop_Ok _ _ _ read_overhead_cases overhead_of_inj overhead_of_fault
           rows data []).
Qed.

Lemma run_parsed w cash_data overheads_data profit_loss_data :
  parsed w cash_data overheads_data profit_loss_data ->
  main.generate_summary_report w
  = ((composed cash_data overheads_data profit_loss_data).2,
     reported w (composed cash_data overheads_data profit_loss_data).1).
Proof.
  intros ((cr & Fc & Hc) & (or & Fo & Ho) & (pr & Fp & Hp)).
  rewrite run_eq. unfold outcome. rewrite Fc, Fo, Fp.
  rewrite (cash_loop_Ok _ _ Hc), (overheads_loop_Ok _ _ Ho), (profit_loop_Ok _ _ Hp).
  unfold composed, reported.
  destruct (cash_on_hand.find_extremes _) as [[? ?] ?].
  destruct (profit_and_loss.find_extremes _) as [[? ?] ?].
  reflexivity.
Qed.

(** The body of the [with] raises only for want of a category. *)
Lemma report_cases highest_overhead cd ci cdef pd pi pdef :
  match overheads.category highest_overhead with
  | Some category =>
      exists sections,
        main.report highest_overhead cd ci cdef pd pi pdef
        = (main.overhead_line (str_upper category)
             (overheads.overhead highest_overhead) :: sections, Ok tt)
  | None =>
      main.report highest_overhead cd ci cdef pd pi pdef = ([], Raise AttributeError)
  end.
Proof.
  unfold main.report. destruct (overheads.category highest_overhead); [|done].
  unfold main.cash_section, main.profit_section.
  destruct (main.consistent cd), (main.consistent pd);
    rewrite ?deficit_branch_eq; simpl; eexists; reflexivity.
Qed.

Lemma composed_cases cash_data overheads_data profit_loss_data :
  match overheads.category (overheads.find_highest_overhead overheads_data) with
  | Some category =>
      exists sections,
        composed cash_data overheads_data profit_loss_data
        = (main.overhead_line (str_upper category)
             (overheads.overhead (overheads.find_highest_overhead overheads_data))
             :: sections, Ok tt)
  | None =>
      composed cash_data overheads_data profit_loss_data = ([], Raise AttributeError)
  end.
Proof.
  unfold composed.
  destruct (cash_on_hand.find_extremes _) as [[? ?] ?].
  destruct (profit_and_loss.find_extremes _) as [[? ?] ?].
  apply report_cases.
Qed.

End ComposedFacts.

(** * The first fault of a run *)

Section FirstFaultFacts.
Context `{Builtins}.







End FirstFaultFacts.




Section WellFormedFacts.
Context `{Builtins}.








End WellFormedFacts.




Section OutcomeFacts.
Context `{Builtins}.

Lemma run_without_category w cash_data overheads_data profit_loss_data :
  parsed w cash_data overheads_data profit_loss_data ->
  overheads.category (overheads.find_highest_overhead overheads_data) = None ->
  main.generate_summary_report w = (Raise AttributeError, reported w []).
Proof.
  intros Hparsed Hnone. rewrite (run_parsed w _ _ _ Hparsed).
  pose proof (composed_cases cash_data overheads_data profit_loss_data) as Hcomp.
  rewrite Hnone in Hcomp. by rewrite Hcomp.
Qed.

(** The reads of a run either all succeed or one of them ends it. *)
Lemma parsed_or_untouched w :
  (exists cash_data overheads_data profit_loss_data,
     parsed w cash_data overheads_data profit_loss_data)
  \/ exists e w', main.generate_summary_report w = (Raise e, w') /\ untouched w w'.
Proof.
  rewrite run_eq. unfold outcome.
  destruct (csv_files w !! cash_csv) as [cr|] eqn:Fc.
  2:{ right. eexists _, _. split; [done|apply untouched_refl]. }
  destruct (loop_cases _ _ _ (read_day_value_cases "Cash On Hand") cr [])
    as [(cd & Lc & Hc)|(? & ? & ? & ? & e & Lc & _)];
    change (read_day_value "Cash On Hand") with cash_on_hand.read_row in Lc;
    rewrite Lc.
  2:{ right. eexists _, _. split; [done|apply untouched_extend]. }
  destruct (csv_files w !! overheads_csv) as [or|] eqn:Fo.
  2:{ right. eexists _, _. split; [done|apply untouched_extend]. }
  destruct (loop_cases _ _ _ read_overhead_cases or [])
    as [(od & Lo & Ho)|(? & ? & ? & ? & e & Lo & _)]; rewrite Lo.
  2:{ right. eexists _, _. split; [done|apply untouched_extend]. }
  destruct (csv_files w !! profit_csv) as [pr|] eqn:Fp.
  2:{ right. eexists _, _. split; [done|apply untouched_extend]. }
  destruct (loop_cases _ _ _ (read_day_value_cases "Net Profit") pr [])
    as [(pd & Lp & Hp)|(? & ? & ? & ? & e & Lp & _)];
    change (read_day_value "Net Profit") with profit_and_loss.read_row in Lp;
    rewrite Lp.
  2:{ right. eexists _, _. split; [done|apply untouched_extend]. }
  left. exists cd, od, pd.
  split; [by exists cr|]. split; [by exists or|by exists pr].
Qed.

End OutcomeFacts.

(** X10.  When the three files are read and the overhead record that wins has
    no category (its line was too short to have the field), the run raises
    [AttributeError] from the first [write] of the [with]: by then every step
    was taken and [summary_report.txt] created, and it is left empty. *)
Theorem missing_category_empties_report `{Builtins} (w : world)
    (cash_data : list (Z * float)) (overheads_data : list (overheads.dict float))
    (profit_loss_data : list (Z * float)) :
  parsed w cash_data overheads_data profit_loss_data ->
  overheads.category (overheads.find_highest_overhead overheads_data) = None ->
  main.generate_summary_report w = (Raise AttributeError, reported w [])
  /\ text_files (reported w []) !! summary_txt = Some "".
Proof.
  intros Hparsed Hnone. split; [by eapply run_without_category|].
  unfold reported. simpl. by rewrite lookup_insert.
Qed.

Lemma missing_category_empties_report_witness :
  @main.generate_summary_report Sample.builtins short_files
    = (Raise AttributeError, reported short_files [])
  /\ text_files (reported short_files []) !! summary_txt = Some "".
Proof.
  apply (@missing_category_empties_report Sample.builtins short_files
           [(1%Z, 100%float); (2%Z, 150%float); (3%Z, 90%float); (4%Z, 90%float)]
           [overheads.Dict None 40%float]
           [(1%Z, 10%float); (2%Z, 30%float)]).
  - split; [|split]; (eexists; split; [reflexivity|]);
      repeat constructor; eexists; split; reflexivity.
  - reflexivity.
Defined.

(** X11.  Every run of [generate_summary_report] ends in one of three ways.  A
    read fails: the run raises and no text file is touched.  The reads
    succeed and the winning overhead record has no category: the run raises
    [AttributeError] and leaves [summary_report.txt] empty.  Otherwise the run
    returns and [summary_report.txt] holds the whole report, from the overhead
    line on.  No run leaves a report that breaks off part-way. *)
Theorem run_writes_all_or_nothing `{Builtins} (w : world) :
  (exists e w', main.generate_summary_report w = (Raise e, w') /\ untouched w w')
  \/ (exists cash_data overheads_data profit_loss_data,
        parsed w cash_data overheads_data profit_loss_data
        /\ overheads.category (overheads.find_highest_overhead overheads_data) = None
        /\ main.generate_summary_report w = (Raise AttributeError, reported w []))
  \/ (exists cash_data overheads_data profit_loss_data category sections,
        parsed w cash_data overheads_data profit_loss_data
        /\ overheads.category (overheads.find_highest_overhead overheads_data)
           = Some category
        /\ composed cash_data overheads_data profit_loss_data
           = (main.overhead_line (str_upper category)
                (overheads.overhead (overheads.find_highest_overhead overheads_data))
                :: sections, Ok tt)
        /\ main.generate_summary_report w
           = (Ok tt,
              reported w
                (main.overhead_line (str_upper category)
                   (overheads.overhead (overheads.find_highest_overhead overheads_data))
                   :: sections))).
Proof.
  destruct (parsed_or_untouched w) as [(cd & od & pd & Hparsed)|Hfail]; [|by left].
  right. pose proof (composed_cases cd od pd) as Hcomp.
  destruct (overheads.category (overheads.find_highest_overhead od)) as [c|] eqn:Ec.
  - right. destruct Hcomp as [sections Hcomp].
    exists cd, od, pd, c, sections. split; [done|]. split; [done|]. split; [done|].
    rewrite (run_parsed w _ _ _ Hparsed). by rewrite Hcomp.
  - left. exists cd, od, pd. split; [done|]. split; [done|].
    by eapply run_without_category.
Qed.

Section RerunFacts.
Context `{Builtins}.

(** The result of a run and what it writes depend on the input files
    only. *)
Lemma outcome_inputs w1 w2 :
  csv_files w1 = csv_files w2 ->
  (outcome w1).1 = (outcome w2).1
  /\ csv_files (outcome w1).2 = csv_files w1
  /\ ((text_files (outcome w1).2 = text_files w1
       /\ text_files (outcome w2).2 = text_files w2)
      \/ exists content,
           text_files (outcome w1).2 = <[summary_txt := content]> (text_files w1)
           /\ text_files (outcome w2).2 = <[summary_txt := content]> (text_files w2)).
Proof.
  intros E. unfold outcome. rewrite <- E.
  repeat match goal with
  | |- context [csv_files w1 !! ?p] => destruct (csv_files w1 !! p)
  | |- context [for_each ?rows ?b []] => destruct (for_each rows b [])
  end; try (split; [done|]; split; [done|]; by left).
  destruct (cash_on_hand.find_extremes _) as [[? ?] ?].
  destruct (profit_and_loss.find_extremes _) as [[? ?] ?].
  split; [done|]. split; [done|]. right. by eexists.
Qed.

End RerunFacts.

(** X12.  Running [generate_summary_report] again changes nothing: the second
    run ends as the first did (the same return or the same exception), every
    text file is as the first run left it, [summary_report.txt] included, and
    the input files are as they were.  The result of a run and its report
    depend on the input files only, not on what an earlier run left. *)
Theorem rerun_changes_nothing `{Builtins} (w : world) :
  (main.generate_summary_report (main.generate_summary_report w).2).1
    = (main.generate_summary_report w).1
  /\ text_files (main.generate_summary_report (main.generate_summary_report w).2).2
     = text_files (main.generate_summary_report w).2
  /\ csv_files (main.generate_summary_report (main.generate_summary_report w).2).2
     = csv_files w.
Proof.
  rewrite !run_eq.
  destruct (outcome_inputs w w eq_refl) as (_ & Hcsv & _).
  destruct (outcome_inputs w (outcome w).2 (eq_sym Hcsv))
    as (Hr & _ & [[Ht1 Ht2]|(content & Ht1 & Ht2)]).
  - split; [done|]. split; [done|].
    destruct (outcome_inputs (outcome w).2 (outcome w).2 eq_refl) as (_ & -> & _).
    done.
  - split; [done|]. split.
    + rewrite Ht2, Ht1. apply insert_insert_eq.
    + destruct (outcome_inputs (outcome w).2 (outcome w).2 eq_refl) as (_ & -> & _).
      done.
Qed.

Section FlatFacts.
Import PyFloat PyFloatFacts.
Context `{Builtins}.

Lemma flat_consistent ds :
  Forall (fun e : Z * float => eq e.2 0 = true) ds -> main.consistent ds = true.
Proof.
  intros Hall. apply consistent_Forall. eapply Forall_impl; [done|].
  intros e He. simpl in *. rewrite ge_le. by apply eq_le, eq_sym.
Qed.

Lemma flat_highest_increase ds :
  Forall (fun e : Z * float => eq e.2 0 = true) ds ->
  (cash_on_hand.find_extremes ds).1.1 = (0%Z, Int 0).
Proof.
  intros Hall. rewrite find_extremes_eq. cbn [fst].
  rewrite (scan_highest ds None). fold (running_max snd ds).
  rewrite running_max_none; [done|].
  intros e He. rewrite Forall_forall in Hall.
  apply le_not_gt, eq_le, Hall, He.
Qed.

Lemma flat_section label ds :
  Forall (fun e : Z * float => eq e.2 0 = true) ds ->
  (if main.consistent ds
   then file_write (main.surplus_line label (cash_on_hand.find_extremes ds).1.1)
   else main.deficit_branch label ds (cash_on_hand.find_extremes ds).2)
  = (["[HIGHEST " +:+ label +:+ " SURPLUS] DAY: 0, AMOUNT: USD0" +:+ nl +:+ nl], Ok tt).
Proof.
  intros Hall. rewrite (flat_consistent ds Hall), (flat_highest_increase ds Hall).
  unfold file_write, main.surplus_line. simpl.
  reflexivity.
Qed.

End FlatFacts.

(** X13.  A series that never moves, every delta comparing equal to zero (a
    constant series, or a file of fewer than two rows, which has no delta at
    all), gets the surplus line of the sentinel: day [0], that no row bears,
    and the amount [0] printed as the [int] it is, [USD0], not as a float. *)
Theorem flat_series_reports_sentinel `{Builtins} (differences : list (Z * float)) :
  Forall (fun e => PyFloat.eq e.2 0 = true) differences ->
  main.cash_section (main.consistent differences) differences
    (cash_on_hand.find_extremes differences).1.1
    (cash_on_hand.find_extremes differences).2
  = (["[HIGHEST CASH SURPLUS] DAY: 0, AMOUNT: USD0" +:+ nl +:+ nl], Ok tt)
  /\ main.profit_section (main.consistent differences) differences
       (profit_and_loss.find_extremes differences).1.1
       (profit_and_loss.find_extremes differences).2
     = (["[HIGHEST NET PROFIT SURPLUS] DAY: 0, AMOUNT: USD0" +:+ nl +:+ nl], Ok tt).
Proof.
  intros Hall. split.
  - apply (flat_section "CASH" differences Hall).
  - apply (flat_section "NET PROFIT" differences Hall).
Qed.

Lemma flat_series_reports_sentinel_witness :
  @main.cash_section Sample.builtins
    (main.consistent [(2%Z, 0%float); (3%Z, (-0)%float)])
    [(2%Z, 0%float); (3%Z, (-0)%float)]
    (cash_on_hand.find_extremes [(2%Z, 0%float); (3%Z, (-0)%float)]).1.1
    (cash_on_hand.find_extremes [(2%Z, 0%float); (3%Z, (-0)%float)]).2
  = (["[HIGHEST CASH SURPLUS] DAY: 0, AMOUNT: USD0" +:+ nl +:+ nl], Ok tt)
  /\ @main.profit_section Sample.builtins
       (main.consistent [(2%Z, 0%float); (3%Z, (-0)%float)])
       [(2%Z, 0%float); (3%Z, (-0)%float)]
       (profit_and_loss.find_extremes [(2%Z, 0%float); (3%Z, (-0)%float)]).1.1
       (profit_and_loss.find_extremes [(2%Z, 0%float); (3%Z, (-0)%float)]).2
     = (["[HIGHEST NET PROFIT SURPLUS] DAY: 0, AMOUNT: USD0" +:+ nl +:+ nl], Ok tt).
Proof.
  apply (@flat_series_reports_sentinel Sample.builtins
           [(2%Z, 0%float); (3%Z, (-0)%float)]).
  repeat constructor.
Defined.

Section ExceptionFacts.
Context `{Builtins}.

Lemma faults_kind {V : Type} (coerce : string -> option V) (r : row) column e :
  faults coerce r column e -> e = KeyError column \/ e = TypeError \/ e = ValueError.
Proof. intros [[_ ->]|[[_ ->]|(s & _ & _ & ->)]]; auto. Qed.

Lemma day_value_fault_kind value_column (r : row) e :
  day_value_fault value_column r e ->
  e = KeyError "Day" \/ e = KeyError value_column \/ e = TypeError \/ e = ValueError.
Proof.
  intros [Hf|[_ Hf]]; apply faults_kind in Hf as [->|[->| ->]]; auto.
Qed.

Lemma overhead_fault_kind (r : row) e :
  overhead_fault r e ->
  e = KeyError "Category" \/ e = KeyError "Overheads" \/ e = TypeError \/ e = ValueError.
Proof.
  intros [[_ ->]|[_ Hf]]; [auto|]. apply faults_kind in Hf as [->|[->| ->]]; auto.
Qed.

Lemma cash_loop_kind rows e :
  for_each rows cash_on_hand.read_row [] = Raise e ->
  e = KeyError "Day" \/ e = KeyError "Cash On Hand" \/ e = TypeError \/ e = ValueError.
Proof.
  destruct (loop_cases _ _ _ (read_day_value_cases "Cash On Hand") rows [])
    as [(d & L & _)|(? & bad & ? & ? & e' & L & _ & _ & He)];
    change (read_day_value "Cash On Hand") with cash_on_hand.read_row in L;
    rewrite L; [done|].
  intros [= <-]. by eapply day_value_fault_kind.
Qed.

Lemma profit_loop_kind rows e :
  for_each rows profit_and_loss.read_row [] = Raise e ->
  e = KeyError "Day" \/ e = KeyError "Net Profit" \/ e = TypeError \/ e = ValueError.
Proof.
  destruct (loop_cases _ _ _ (read_day_value_cases "Net Profit") rows [])
    as [(d & L & _)|(? & bad & ? & ? & e' & L & _ & _ & He)];
    change (read_day_value "Net Profit") with profit_and_loss.read_row in L;
    rewrite L; [done|].
  intros [= <-]. by eapply day_value_fault_kind.
Qed.

Lemma overheads_loop_kind rows e :
  for_each rows overheads.read_row [] = Raise e ->
  e = KeyError "Category" \/ e = KeyError "Overheads" \/ e = TypeError \/ e = ValueError.
Proof.
  destruct (loop_cases _ _ _ read_overhead_cases rows [])
    as [(d & L & _)|(? & bad & ? & ? & e' & L & _ & _ & He)]; rewrite L; [done|].
  intros [= <-]. by eapply overhead_fault_kind.
Qed.

End ExceptionFacts.

(** X14.  A run of [generate_summary_report] never raises [IndexError]:
    the indices [i] and [i - 1] of [compute_differences] and the index
    [i - 1] into the three ordinals stay in range, whatever the rows of the
    files hold. *)
Theorem run_raises_no_index_error `{Builtins} (w w' : world) (e : exn) :
  main.generate_summary_report w = (Raise e, w') -> e <> IndexError.
Proof.
  rewrite run_eq. unfold outcome.
  destruct (csv_files w !! cash_csv) as [cr|] eqn:Fc; [|by intros [= <- _]].
  destruct (for_each cr cash_on_hand.read_row []) as [cd|ec] eqn:Lc.
  2:{ intros [= <- _]. by apply cash_loop_kind in Lc as [->|[->|[->| ->]]]. }
  destruct (csv_files w !! overheads_csv) as [or|] eqn:Fo; [|by intros [= <- _]].
  destruct (for_each or overheads.read_row []) as [od|eo] eqn:Lo.
  2:{ intros [= <- _]. by apply overheads_loop_kind in Lo as [->|[->|[->| ->]]]. }
  destruct (csv_files w !! profit_csv) as [pr|] eqn:Fp; [|by intros [= <- _]].
  destruct (for_each pr profit_and_loss.read_row []) as [pd|ep] eqn:Lp.
  2:{ intros [= <- _]. by apply profit_loop_kind in Lp as [->|[->|[->| ->]]]. }
  destruct (cash_on_hand.find_extremes _) as [[ci ?] cdef].
  destruct (profit_and_loss.find_extremes _) as [[pi ?] pdef].
  pose proof (report_cases (overheads.find_highest_overhead od)
                (differences_of cd) ci cdef (differences_of pd) pi pdef) as Hrep.
  destruct (overheads.category (overheads.find_highest_overhead od)).
  - destruct Hrep as [sections ->]. done.
  - rewrite Hrep. by intros [= <- _].
Qed.

Lemma run_raises_no_index_error_witness :
  exists w',
    @main.generate_summary_report Sample.builtins Sample.bad_files = (Raise ValueError, w')
    /\ ValueError <> IndexError.
Proof.
  eexists. split; [reflexivity|].
  eapply (@run_raises_no_index_error Sample.builtins Sample.bad_files).
  reflexivity.
Defined.
